(** * iexjs: request building and list conversion of the market-data client

    A shallow embedding of [src/js/marketdata/http.js] and of the reference
    data symbols module (the second source file) of iexjs, with the
    properties of their request building, argument validation, credential
    forwarding and list conversion.

    The endpoint functions are JavaScript arrow functions over untyped
    arguments.  They are embedded as functions over a type [value] of
    JavaScript values, in a small monad that threads the sequence of calls
    made to the request core and propagates thrown errors (a rejected
    promise and a synchronous throw are both an error outcome; a pending
    value is identified with the outcome it settles to). *)

From Stdlib Require Import String Ascii List Bool Lia.
From Stdlib Require Import PrimFloat.
Import ListNotations.

Set Warnings "-register-all".

Open Scope list_scope.
Open Scope string_scope.

(** ** JavaScript values

    The fragment of JavaScript values that JSON decoding produces and that
    callers pass as arguments, plus [undefined] (an omitted argument, a
    missing property).  Numbers are IEEE 754 doubles.  An object is the
    sequence of its own properties; property names are unique in an object
    built by a literal or by JSON decoding, and a read takes the first
    entry for a name. *)
Inductive value : Type :=
| VUndefined
| VNull
| VBool (b : bool)
| VNum (n : float)
| VStr (s : string)
| VArr (elems : list value)
| VObj (props : list (string * value)).

(** The errors a call can end in: the taxonomy of the client (invalid
    argument shape, invalid date, failed request, undecodable body) and the
    [TypeError] the JavaScript runtime throws on a property read from
    [undefined]/[null] or on a call of something that is not a function. *)
Inductive error : Type :=
| TypeArgumentError
| InvalidDateError
| RequestError (status : float) (body : string)
| DecodeError
| TypeError.

(** One call of the request core, [_getJson(options, token, version,
    filter)]: the options object and the three positional arguments, an
    argument that is not passed being [undefined]. *)
Record Call : Type := mkCall {
  call_options : value;
  call_token : value;
  call_version : value;
  call_filter : value
}.

(** What the embedding does not fix.  [Number_toString] is the runtime's
    conversion of a number to a string.  [_strOrDate] and the response of
    the request core are imported by the sources from [../common], which is
    not part of them: [_strOrDate] is kept abstract (only [hist] uses it),
    and [respond past c] is the outcome of the call [c] of [_getJson] made
    after the calls [past]. *)
Class Runtime : Type := {
  Number_toString : float -> string;
  _strOrDate : value -> error + value;
  respond : list Call -> Call -> error + value
}.

Module JS.

(** [if (v)]: ToBoolean. *)
Definition truthy (v : value) : bool :=
  match v with
  | VUndefined | VNull => false
  | VBool b => b
  | VNum n => negb (PrimFloat.eqb n 0%float || PrimFloat.is_nan n)
  | VStr s => negb (String.eqb s "")
  | VArr _ | VObj _ => true
  end.

(** [typeof v === "string"]. *)
Definition is_string (v : value) : bool :=
  match v with VStr _ => true | _ => false end.

(** [v === undefined || v === null]. *)
Definition nullish (v : value) : bool :=
  match v with VUndefined | VNull => true | _ => false end.

(** A default parameter [x = d]: [d] replaces an [undefined] argument, and
    only that. *)
Definition default (v d : value) : value :=
  match v with VUndefined => d | _ => v end.

(** The first entry for [k] among the properties of an object. *)
Fixpoint lookup (k : string) (props : list (string * value)) : option value :=
  match props with
  | [] => None
  | (k', v) :: rest => if String.eqb k k' then Some v else lookup k rest
  end.

(** A conversion that can throw, followed by what uses its result. *)
Definition and_then {A B : Type} (r : error + A) (k : A -> error + B) : error + B :=
  match r with
  | inl e => inl e
  | inr a => k a
  end.

(** The elements [f x] of a list separated by [sep], converted from the
    first to the last; the conversion of an element can throw, and the
    first one that throws ends the join. *)
Definition join_with (f : value -> error + string) (sep : string)
  : list value -> error + string :=
  fix go (l : list value) : error + string :=
    match l with
    | [] => inr ""
    | x :: r =>
        match r with
        | [] => f x
        | _ :: _ =>
            and_then (f x) (fun s => and_then (go r) (fun t => inr (s ++ sep ++ t)))
        end
    end.

Section WithRuntime.
Context {R : Runtime}.

(** ToString, as a template literal [`${v}`] and string concatenation apply
    it.  An array is its elements joined by a comma, [undefined] and [null]
    elements giving the empty string.  An object converts through its
    [toString]: the inherited one gives ["[object Object]"]; an own
    property of that name hides it and, no value of [value] being a
    function, is not callable, so that the conversion throws a [TypeError]
    (the inherited [valueOf], tried next, returns the object itself). *)
Fixpoint to_string (v : value) : error + string :=
  match v with
  | VUndefined => inr "undefined"
  | VNull => inr "null"
  | VBool true => inr "true"
  | VBool false => inr "false"
  | VNum n => inr (Number_toString n)
  | VStr s => inr s
  | VArr l =>
      join_with (fun x => match x with
                          | VUndefined | VNull => inr ""
                          | _ => to_string x
                          end) "," l
  | VObj props =>
      match lookup "toString" props with
      | Some _ => inl TypeError
      | None => inr "[object Object]"
      end
  end.

(** The string of an array element inside [Array.prototype.join]. *)
Definition element_string (x : value) : error + string :=
  if nullish x then inr "" else to_string x.

(** ToPrimitive: arrays and plain objects convert through [toString] (an
    own [valueOf] is no function either, and the inherited one returns the
    object itself), and throw when it throws. *)
Definition to_primitive (v : value) : error + value :=
  match v with
  | VArr _ | VObj _ => and_then (to_string v) (fun s => inr (VStr s))
  | _ => inr v
  end.

(** ToNumber of a primitive that is not a string ([add] applies it to no
    other value). *)
Definition to_number (v : value) : float :=
  match v with
  | VNull => 0%float
  | VBool true => 1%float
  | VBool false => 0%float
  | VNum n => n
  | _ => nan
  end.

(** The binary [+]: the left operand, then the right one, is converted to
    a primitive, which can throw; then string concatenation as soon as one
    of the primitives is a string, numeric addition otherwise. *)
Definition add (a b : value) : error + value :=
  and_then (to_primitive a) (fun pa =>
  and_then (to_primitive b) (fun pb =>
    match pa, pb with
    | VStr x, _ => and_then (to_string pb) (fun y => inr (VStr (x ++ y)))
    | _, VStr y => and_then (to_string pa) (fun x => inr (VStr (x ++ y)))
    | _, _ => inr (VNum (PrimFloat.add (to_number pa) (to_number pb)))
    end)).

End WithRuntime.

End JS.

(** ** The monad of the endpoint functions

    A computation takes the calls of the request core made so far and gives
    its outcome with the calls made by its end.  After an error nothing
    more runs; the calls already made stay made. *)
Definition M (A : Type) : Type := list Call -> (error + A) * list Call.

Definition ret {A : Type} (a : A) : M A := fun log => (inr a, log).

Definition throw {A : Type} (e : error) : M A := fun log => (inl e, log).

Definition bind {A B : Type} (m : M A) (k : A -> M B) : M B :=
  fun log =>
    match m log with
    | (inr a, log') => k a log'
    | (inl e, log') => (inl e, log')
    end.

Definition lift {A : Type} (r : error + A) : M A := fun log => (r, log).

Declare Scope js_scope.
Delimit Scope js_scope with js.
Notation "x <- m ;; k" := (bind m (fun x => k))
  (at level 61, m at next level, right associativity) : js_scope.
Notation "m ;; k" := (bind m (fun _ => k))
  (at level 61, right associativity) : js_scope.
Open Scope js_scope.

(** The outcome of a computation started with no call made yet, and the
    calls it makes. *)
Definition outcome {A : Type} (m : M A) : error + A := fst (m []).
Definition requests {A : Type} (m : M A) : list Call := snd (m []).

(** [Array.prototype.map] and [forEach] run the callback on the elements in
    order.  [each f acc l] is the loop of a callback that updates [acc]. *)
Fixpoint each {A S : Type} (f : S -> A -> M S) (acc : S) (l : list A) : M S :=
  match l with
  | [] => ret acc
  | x :: r => acc' <- f acc x ;; each f acc' r
  end.

Fixpoint map_each {A B : Type} (f : A -> M B) (l : list A) : M (list B) :=
  match l with
  | [] => ret []
  | x :: r => y <- f x ;; ys <- map_each f r ;; ret (y :: ys)
  end.

(** [arr.push(x)]. *)
Definition push {A : Type} (arr : list A) (x : A) : list A := (arr ++ [x])%list.

Module Lang.
Import JS.

(** [v.k] for a data property [k] (none of the names the sources read is a
    built-in property of a string, an array, a number or a boolean): a
    [TypeError] on [undefined] and [null], the property of an object, and
    [undefined] when there is none. *)
Definition get (v : value) (k : string) : M value :=
  match v with
  | VUndefined | VNull => throw TypeError
  | VObj props =>
      match lookup k props with
      | Some x => ret x
      | None => ret VUndefined
      end
  | _ => ret VUndefined
  end.

(** [v.map(f)]: only an array has the method. *)
Definition map (v : value) (f : value -> M value) : M value :=
  match v with
  | VArr l => ys <- map_each f l ;; ret (VArr ys)
  | _ => throw TypeError
  end.

(** [v.forEach(f)] for a callback that updates the accumulator [acc]. *)
Definition forEach {S : Type} (v : value) (f : S -> value -> M S) (acc : S) : M S :=
  match v with
  | VArr l => each f acc l
  | _ => throw TypeError
  end.

(** [v.join(sep)]: only an array has the method. *)
Definition join {R : Runtime} (v : value) (sep : string) : M string :=
  match v with
  | VArr l => lift (join_with element_string sep l)
  | _ => throw TypeError
  end.

End Lang.

(** ** The helpers imported from [../common] *)
Module Common.
Import JS.

Section WithRuntime.
Context {R : Runtime}.

(** The request core.  Its body is not among the sources; a call is
    recorded with the arguments it receives, and settles to what the
    runtime answers for it. *)
Definition _getJson (options token version filter : value) : M value :=
  fun log =>
    let c := mkCall options token version filter in
    (respond log c, (log ++ [c])%list).

End WithRuntime.

(** A value is provided when it is neither [undefined] nor [null]. *)
Definition provided (v : value) : bool := negb (nullish v).

(** Modelled from the spec: [_raiseIfNotStr] is defined in [../common],
    which is not among the sources.  It "fails with [TypeArgumentError] if
    [value] is provided but is not a single string". *)
Definition _raiseIfNotStr (v : value) : M unit :=
  if provided v && negb (is_string v) then throw TypeArgumentError else ret tt.

(** Modelled from the spec: [_strToList] is defined in [../common], which
    is not among the sources.  It "accepts either a single string or an
    ordered sequence of strings and normalizes to an ordered sequence of
    strings": a single string becomes the one-element sequence, and a
    sequence is returned unchanged.  The spec says nothing of other
    values; they are returned unchanged too. *)
Definition _strToList (v : value) : value :=
  match v with
  | VStr s => VArr [VStr s]
  | _ => v
  end.

End Common.

(** The [Client] of [../client], as far as the sources use it: the stored
    token and version that the mounted methods read from [this]. *)
Record Client : Type := mkClient {
  _token : value;
  _version : value
}.

(** The object literal [{ url: u }]. *)
Definition url_only (u : string) : value := VObj [("url", VStr u)].

(** The object literal [{ url: u, token, version, filter }]. *)
Definition url_with (u : string) (token version filter : value) : value :=
  VObj [("url", VStr u); ("token", token); ("version", version); ("filter", filter)].

(** The [url] property of the options of a call. *)
Definition call_url (c : Call) : option value :=
  match call_options c with
  | VObj props => JS.lookup "url" props
  | _ => None
  end.

(** ** [src/js/marketdata/http.js] *)
Module Http.
Import JS Lang Common.

Section WithRuntime.
Context {R : Runtime}.

Definition tops (symbols token version filter : value) : M value :=
  if truthy symbols then
    joined <- join (_strToList symbols) "," ;;
    _getJson (url_only ("tops?symbols=" ++ joined ++ "%2b")) token version VUndefined
  else
    _getJson (url_only "tops") token version filter.

Definition Client_tops (this : Client) (symbols filter : value) : M value :=
  tops symbols (_token this) (_version this) filter.

Definition last (symbols token version filter : value) : M value :=
  if truthy symbols then
    joined <- join (_strToList symbols) "," ;;
    _getJson (url_only ("last?symbols=" ++ joined ++ "%2b")) token version VUndefined
  else
    _getJson (url_only "last") token version filter.

Definition Client_last (this : Client) (symbols filter : value) : M value :=
  last symbols (_token this) (_version this) filter.

Definition deep (symbol token version filter : value) : M value :=
  _raiseIfNotStr symbol ;;
  if truthy symbol then
    s <- lift (to_string symbol) ;;
    _getJson (url_only ("deep?symbols=" ++ s)) token version VUndefined
  else
    _getJson (url_only "deep") token version filter.

Definition Client_deep (this : Client) (symbol filter : value) : M value :=
  deep symbol (_token this) (_version this) filter.

Definition auction (symbol token version filter : value) : M value :=
  _raiseIfNotStr symbol ;;
  if truthy symbol then
    s <- lift (to_string symbol) ;;
    _getJson (url_only ("deep/auction?symbols=" ++ s)) token version filter
  else
    _getJson (url_only "deep/auction") token version filter.

Definition Client_auction (this : Client) (symbol filter : value) : M value :=
  auction symbol (_token this) (_version this) filter.

Definition book (symbol token version filter : value) : M value :=
  _raiseIfNotStr symbol ;;
  if truthy symbol then
    s <- lift (to_string symbol) ;;
    _getJson (url_only ("deep/book?symbols=" ++ s)) token version filter
  else
    _getJson (url_only "deep/book") token version filter.

Definition Client_book (this : Client) (symbol filter : value) : M value :=
  book symbol (_token this) (_version this) filter.

Definition opHaltStatus (symbol token version filter : value) : M value :=
  _raiseIfNotStr symbol ;;
  if truthy symbol then
    s <- lift (to_string symbol) ;;
    _getJson (url_only ("deep/op-halt-status?symbols=" ++ s)) token version filter
  else
    _getJson (url_only "deep/op-halt-status") token version filter.

Definition Client_opHaltStatus (this : Client) (symbol filter : value) : M value :=
  opHaltStatus symbol (_token this) (_version this) filter.

Definition officialPrice (symbol token version filter : value) : M value :=
  _raiseIfNotStr symbol ;;
  if truthy symbol then
    s <- lift (to_string symbol) ;;
    _getJson (url_only ("deep/official-price?symbols=" ++ s)) token version filter
  else
    _getJson (url_only "deep/official-price") token version filter.

Definition Client_officialPrice (this : Client) (symbol filter : value) : M value :=
  officialPrice symbol (_token this) (_version this) filter.

Definition securityEvent (symbol token version filter : value) : M value :=
  _raiseIfNotStr symbol ;;
  if truthy symbol then
    s <- lift (to_string symbol) ;;
    _getJson (url_only ("deep/security-event?symbols=" ++ s)) token version filter
  else
    _getJson (url_only "deep/security-event") token version filter.

Definition Client_securityEvent (this : Client) (symbol filter : value) : M value :=
  securityEvent symbol (_token this) (_version this) filter.

Definition ssrStatus (symbol token version filter : value) : M value :=
  _raiseIfNotStr symbol ;;
  if truthy symbol then
    s <- lift (to_string symbol) ;;
    _getJson (url_only ("deep/ssr-status?symbols=" ++ s)) token version filter
  else
    _getJson (url_only "deep/ssr-status") token version filter.

Definition Client_ssrStatus (this : Client) (symbol filter : value) : M value :=
  ssrStatus symbol (_token this) (_version this) filter.

Definition systemEvent (symbol token version filter : value) : M value :=
  _raiseIfNotStr symbol ;;
  if truthy symbol then
    s <- lift (to_string symbol) ;;
    _getJson (url_only ("deep/system-event?symbols=" ++ s)) token version filter
  else
    _getJson (url_only "deep/system-event") token version filter.

Definition Client_systemEvent (this : Client) (symbol filter : value) : M value :=
  systemEvent symbol (_token this) (_version this) filter.

Definition trades (symbol token version filter : value) : M value :=
  _raiseIfNotStr symbol ;;
  if truthy symbol then
    s <- lift (to_string symbol) ;;
    _getJson (url_only ("deep/trades?symbols=" ++ s)) token version filter
  else
    _getJson (url_only "deep/trades") token version filter.

Definition Client_trades (this : Client) (symbol filter : value) : M value :=
  trades symbol (_token this) (_version this) filter.

Definition tradeBreak (symbol token version filter : value) : M value :=
  _raiseIfNotStr symbol ;;
  if truthy symbol then
    s <- lift (to_string symbol) ;;
    _getJson (url_only ("deep/trade-breaks?symbols=" ++ s)) token version filter
  else
    _getJson (url_only "deep/trade-breaks") token version filter.

Definition Client_tradeBreak (this : Client) (symbol filter : value) : M value :=
  tradeBreak symbol (_token this) (_version this) filter.

Definition tradingStatus (symbol token version filter : value) : M value :=
  _raiseIfNotStr symbol ;;
  if truthy symbol then
    s <- lift (to_string symbol) ;;
    _getJson (url_only ("deep/trading-status?symbols=" ++ s)) token version filter
  else
    _getJson (url_only "deep/trading-status") token version filter.

Definition Client_tradingStatus (this : Client) (symbol filter : value) : M value :=
  tradingStatus symbol (_token this) (_version this) filter.

Definition hist (date token version filter : value) : M value :=
  if truthy date then
    d <- lift (_strOrDate date) ;;
    s <- lift (to_string d) ;;
    _getJson (url_only ("hist?date=" ++ s)) token version filter
  else
    _getJson (url_only "hist") token version filter.

Definition Client_hist (this : Client) (date filter : value) : M value :=
  hist date (_token this) (_version this) filter.

End WithRuntime.
End Http.

(** ** The reference data symbols module (the second source file) *)
Module Symbols.
Import JS Lang Common.

Section WithRuntime.
Context {R : Runtime}.

Definition symbols (token version filter : value) : M value :=
  let token := default token (VStr "") in
  let version := default version (VStr "") in
  let filter := default filter (VStr "") in
  _getJson (url_with "ref-data/symbols" token version filter)
           VUndefined VUndefined VUndefined.

Definition Client_symbols (this : Client) (filter : value) : M value :=
  symbols (_token this) (_version this) filter.

Definition iexSymbols (token version filter : value) : M value :=
  let token := default token (VStr "") in
  let version := default version (VStr "") in
  let filter := default filter (VStr "") in
  _getJson (url_with "ref-data/iex/symbols" token version filter)
           VUndefined VUndefined VUndefined.

Definition Client_iexSymbols (this : Client) (filter : value) : M value :=
  iexSymbols (_token this) (_version this) filter.

Definition mutualFundSymbols (token version filter : value) : M value :=
  let token := default token (VStr "") in
  let version := default version (VStr "") in
  let filter := default filter (VStr "") in
  _getJson (url_with "ref-data/mutual-funds/symbols" token version filter)
           VUndefined VUndefined VUndefined.

Definition Client_mutualFundSymbols (this : Client) (filter : value) : M value :=
  mutualFundSymbols (_token this) (_version this) filter.

Definition otcSymbols (token version filter : value) : M value :=
  let token := default token (VStr "") in
  let version := default version (VStr "") in
  let filter := default filter (VStr "") in
  _getJson (url_with "ref-data/otc/symbols" token version filter)
           VUndefined VUndefined VUndefined.

Definition Client_otcSymbols (this : Client) (filter : value) : M value :=
  otcSymbols (_token this) (_version this) filter.

Definition internationalSymbols (region exchange token version filter : value) : M value :=
  let token := default token (VStr "") in
  let version := default version (VStr "") in
  let filter := default filter (VStr "") in
  if truthy region then
    r <- lift (to_string region) ;;
    _getJson (url_with ("ref-data/region/" ++ r ++ "/symbols") token version filter)
             VUndefined VUndefined VUndefined
  else if truthy exchange then
    x <- lift (to_string exchange) ;;
    _getJson (url_with ("ref-data/exchange/" ++ x ++ "/symbols") token version filter)
             VUndefined VUndefined VUndefined
  else
    _getJson (url_with "ref-data/region/us/symbols" token version filter)
             VUndefined VUndefined VUndefined.

Definition Client_internationalSymbols (this : Client) (region exchange filter : value)
  : M value :=
  internationalSymbols region exchange (_token this) (_version this) filter.

Definition fxSymbols (token version filter : value) : M value :=
  let token := default token (VStr "") in
  let version := default version (VStr "") in
  let filter := default filter (VStr "") in
  _getJson (url_with "ref-data/fx/symbols" token version filter)
           VUndefined VUndefined VUndefined.

Definition Client_fxSymbols (this : Client) (filter : value) : M value :=
  fxSymbols (_token this) (_version this) filter.

Definition optionsSymbols (token version filter : value) : M value :=
  let token := default token (VStr "") in
  let version := default version (VStr "") in
  let filter := default filter (VStr "") in
  _getJson (url_with "ref-data/options/symbols" token version filter)
           VUndefined VUndefined VUndefined.

Definition Client_optionsSymbols (this : Client) (filter : value) : M value :=
  optionsSymbols (_token this) (_version this) filter.

Definition cryptoSymbols (token version filter : value) : M value :=
  let token := default token (VStr "") in
  let version := default version (VStr "") in
  let filter := default filter (VStr "") in
  _getJson (url_with "ref-data/crypto/symbols" token version filter)
           VUndefined VUndefined VUndefined.

Definition Client_cryptoSymbols (this : Client) (filter : value) : M value :=
  cryptoSymbols (_token this) (_version this) filter.

(** [async (res) => (await res).map((record) => record.symbol)].  The
    pending value [res] is the computation that settles it. *)
Definition convertToList (res : M value) : M value :=
  r <- res ;;
  map r (fun record => get record "symbol").

Definition symbolsList (token version : value) : M value :=
  convertToList (symbols token version (VStr "symbol")).

Definition Client_symbolsList (this : Client) : M value :=
  convertToList (symbols (_token this) (_version this) (VStr "symbol")).

Definition iexSymbolsList (token version : value) : M value :=
  convertToList (iexSymbols token version (VStr "symbol")).

Definition Client_iexSymbolsList (this : Client) : M value :=
  convertToList (iexSymbols (_token this) (_version this) (VStr "symbol")).

Definition mutualFundSymbolsList (token version : value) : M value :=
  convertToList (mutualFundSymbols token version (VStr "symbol")).

Definition Client_mutualFundSymbolsList (this : Client) : M value :=
  convertToList (mutualFundSymbols (_token this) (_version this) (VStr "symbol")).

Definition otcSymbolsList (token version : value) : M value :=
  convertToList (otcSymbols token version (VStr "symbol")).

Definition Client_otcSymbolsList (this : Client) : M value :=
  convertToList (otcSymbols (_token this) (_version this) (VStr "symbol")).

Definition internationalSymbolsList (region exchange token version : value) : M value :=
  convertToList (internationalSymbols region exchange token version (VStr "symbol")).

Definition Client_internationalSymbolsList (this : Client) (region exchange : value)
  : M value :=
  convertToList
    (internationalSymbols region exchange (_token this) (_version this) (VStr "symbol")).

(** [ret] is the pair of arrays [[[], []]] that the two [forEach] loops
    fill by [push]; [ret0] and [ret1] are its two components. *)
Definition fxSymbolsList (token version : value) : M value :=
  fx <- fxSymbols token version VUndefined ;;
  let ret0 : list value := [] in
  let ret1 : list value := [] in
  currencies <- get fx "currencies" ;;
  ret0 <- forEach currencies
            (fun ret0 record =>
               code <- get record "code" ;;
               ret (push ret0 code))
            ret0 ;;
  pairs <- get fx "pairs" ;;
  ret1 <- forEach pairs
            (fun ret1 record =>
               fromCurrency <- get record "fromCurrency" ;;
               toCurrency <- get record "toCurrency" ;;
               code <- lift (add fromCurrency toCurrency) ;;
               ret (push ret1 code))
            ret1 ;;
  ret (VArr [VArr ret0; VArr ret1]).

Definition Client_fxSymbolsList (this : Client) : M value :=
  fxSymbolsList (_token this) (_version this).

Definition optionsSymbolsList (token version : value) : M value :=
  convertToList (optionsSymbols token version (VStr "symbol")).

Definition Client_optionsSymbolsList (this : Client) : M value :=
  convertToList (optionsSymbols (_token this) (_version this) (VStr "symbol")).

Definition cryptoSymbolsList (token version : value) : M value :=
  convertToList (cryptoSymbols token version (VStr "symbol")).

Definition Client_cryptoSymbolsList (this : Client) : M value :=
  convertToList (cryptoSymbols (_token this) (_version this) (VStr "symbol")).

Definition isinLookup (isin token version filter : value) : M value :=
  let token := default token (VStr "") in
  let version := default version (VStr "") in
  let filter := default filter (VStr "") in
  i <- lift (to_string isin) ;;
  _getJson (url_with ("ref-data/isin?isin=" ++ i) token version filter)
           VUndefined VUndefined VUndefined.

Definition Client_isinLookup (this : Client) (isin filter : value) : M value :=
  isinLookup isin (_token this) (_version this) filter.

End WithRuntime.
End Symbols.

(** ** The two call surfaces

    Every endpoint is exported as a free function and mounted as a method
    of [Client].  A JavaScript call passes a sequence of arguments; a
    parameter with no argument is [undefined]. *)
Inductive endpoint : Type :=
| E_tops | E_last | E_deep | E_auction | E_book | E_opHaltStatus
| E_officialPrice | E_securityEvent | E_ssrStatus | E_systemEvent
| E_trades | E_tradeBreak | E_tradingStatus | E_hist
| E_symbols | E_iexSymbols | E_mutualFundSymbols | E_otcSymbols
| E_internationalSymbols | E_fxSymbols | E_optionsSymbols | E_cryptoSymbols
| E_symbolsList | E_iexSymbolsList | E_mutualFundSymbolsList | E_otcSymbolsList
| E_internationalSymbolsList | E_fxSymbolsList | E_optionsSymbolsList
| E_cryptoSymbolsList | E_isinLookup.

Definition arg (i : nat) (args : list value) : value := nth i args VUndefined.

Section Surfaces.
Context {R : Runtime}.

(** The call [f(...args)] of the free function of an endpoint. *)
Definition free (e : endpoint) (args : list value) : M value :=
  let a := fun i => arg i args in
  match e with
  | E_tops => Http.tops (a 0) (a 1) (a 2) (a 3)
  | E_last => Http.last (a 0) (a 1) (a 2) (a 3)
  | E_deep => Http.deep (a 0) (a 1) (a 2) (a 3)
  | E_auction => Http.auction (a 0) (a 1) (a 2) (a 3)
  | E_book => Http.book (a 0) (a 1) (a 2) (a 3)
  | E_opHaltStatus => Http.opHaltStatus (a 0) (a 1) (a 2) (a 3)
  | E_officialPrice => Http.officialPrice (a 0) (a 1) (a 2) (a 3)
  | E_securityEvent => Http.securityEvent (a 0) (a 1) (a 2) (a 3)
  | E_ssrStatus => Http.ssrStatus (a 0) (a 1) (a 2) (a 3)
  | E_systemEvent => Http.systemEvent (a 0) (a 1) (a 2) (a 3)
  | E_trades => Http.trades (a 0) (a 1) (a 2) (a 3)
  | E_tradeBreak => Http.tradeBreak (a 0) (a 1) (a 2) (a 3)
  | E_tradingStatus => Http.tradingStatus (a 0) (a 1) (a 2) (a 3)
  | E_hist => Http.hist (a 0) (a 1) (a 2) (a 3)
  | E_symbols => Symbols.symbols (a 0) (a 1) (a 2)
  | E_iexSymbols => Symbols.iexSymbols (a 0) (a 1) (a 2)
  | E_mutualFundSymbols => Symbols.mutualFundSymbols (a 0) (a 1) (a 2)
  | E_otcSymbols => Symbols.otcSymbols (a 0) (a 1) (a 2)
  | E_internationalSymbols => Symbols.internationalSymbols (a 0) (a 1) (a 2) (a 3) (a 4)
  | E_fxSymbols => Symbols.fxSymbols (a 0) (a 1) (a 2)
  | E_optionsSymbols => Symbols.optionsSymbols (a 0) (a 1) (a 2)
  | E_cryptoSymbols => Symbols.cryptoSymbols (a 0) (a 1) (a 2)
  | E_symbolsList => Symbols.symbolsList (a 0) (a 1)
  | E_iexSymbolsList => Symbols.iexSymbolsList (a 0) (a 1)
  | E_mutualFundSymbolsList => Symbols.mutualFundSymbolsList (a 0) (a 1)
  | E_otcSymbolsList => Symbols.otcSymbolsList (a 0) (a 1)
  | E_internationalSymbolsList => Symbols.internationalSymbolsList (a 0) (a 1) (a 2) (a 3)
  | E_fxSymbolsList => Symbols.fxSymbolsList (a 0) (a 1)
  | E_optionsSymbolsList => Symbols.optionsSymbolsList (a 0) (a 1)
  | E_cryptoSymbolsList => Symbols.cryptoSymbolsList (a 0) (a 1)
  | E_isinLookup => Symbols.isinLookup (a 0) (a 1) (a 2) (a 3)
  end.

(** The call [this.f(...args)] of the method mounted for an endpoint. *)
Definition method (e : endpoint) (this : Client) (args : list value) : M value :=
  let a := fun i => arg i args in
  match e with
  | E_tops => Http.Client_tops this (a 0) (a 1)
  | E_last => Http.Client_last this (a 0) (a 1)
  | E_deep => Http.Client_deep this (a 0) (a 1)
  | E_auction => Http.Client_auction this (a 0) (a 1)
  | E_book => Http.Client_book this (a 0) (a 1)
  | E_opHaltStatus => Http.Client_opHaltStatus this (a 0) (a 1)
  | E_officialPrice => Http.Client_officialPrice this (a 0) (a 1)
  | E_securityEvent => Http.Client_securityEvent this (a 0) (a 1)
  | E_ssrStatus => Http.Client_ssrStatus this (a 0) (a 1)
  | E_systemEvent => Http.Client_systemEvent this (a 0) (a 1)
  | E_trades => Http.Client_trades this (a 0) (a 1)
  | E_tradeBreak => Http.Client_tradeBreak this (a 0) (a 1)
  | E_tradingStatus => Http.Client_tradingStatus this (a 0) (a 1)
  | E_hist => Http.Client_hist this (a 0) (a 1)
  | E_symbols => Symbols.Client_symbols this (a 0)
  | E_iexSymbols => Symbols.Client_iexSymbols this (a 0)
  | E_mutualFundSymbols => Symbols.Client_mutualFundSymbols this (a 0)
  | E_otcSymbols => Symbols.Client_otcSymbols this (a 0)
  | E_internationalSymbols => Symbols.Client_internationalSymbols this (a 0) (a 1) (a 2)
  | E_fxSymbols => Symbols.Client_fxSymbols this (a 0)
  | E_optionsSymbols => Symbols.Client_optionsSymbols this (a 0)
  | E_cryptoSymbols => Symbols.Client_cryptoSymbols this (a 0)
  | E_symbolsList => Symbols.Client_symbolsList this
  | E_iexSymbolsList => Symbols.Client_iexSymbolsList this
  | E_mutualFundSymbolsList => Symbols.Client_mutualFundSymbolsList this
  | E_otcSymbolsList => Symbols.Client_otcSymbolsList this
  | E_internationalSymbolsList => Symbols.Client_internationalSymbolsList this (a 0) (a 1)
  | E_fxSymbolsList => Symbols.Client_fxSymbolsList this
  | E_optionsSymbolsList => Symbols.Client_optionsSymbolsList this
  | E_cryptoSymbolsList => Symbols.Client_cryptoSymbolsList this
  | E_isinLookup => Symbols.Client_isinLookup this (a 0) (a 1)
  end.

End Surfaces.

(** The number of parameters of the free function that come before
    [token] and [version]. *)
Definition leading (e : endpoint) : nat :=
  match e with
  | E_internationalSymbols | E_internationalSymbolsList => 2
  | E_symbols | E_iexSymbols | E_mutualFundSymbols | E_otcSymbols
  | E_fxSymbols | E_optionsSymbols | E_cryptoSymbols
  | E_symbolsList | E_iexSymbolsList | E_mutualFundSymbolsList
  | E_otcSymbolsList | E_fxSymbolsList | E_optionsSymbolsList
  | E_cryptoSymbolsList => 0
  | _ => 1
  end.

(** The arguments of a method call with the token and the version of the
    client put where the free function takes them. *)
Definition with_credentials (e : endpoint) (this : Client) (args : list value)
  : list value :=
  (firstn (leading e) (args ++ repeat VUndefined (leading e))
   ++ [_token this; _version this]
   ++ skipn (leading e) args)%list.

(** ** Notions the properties are stated with *)

(** The endpoints of [http.js] that branch on their symbols argument. *)
Definition branches_on_symbols (e : endpoint) : bool :=
  match e with
  | E_tops | E_last | E_deep | E_auction | E_book | E_opHaltStatus
  | E_officialPrice | E_securityEvent | E_ssrStatus | E_systemEvent
  | E_trades | E_tradeBreak | E_tradingStatus => true
  | _ => false
  end.

(** Among them, the endpoints that demand a single symbol. *)
Definition single_symbol (e : endpoint) : bool :=
  match e with
  | E_tops | E_last => false
  | _ => branches_on_symbols e
  end.

(** The endpoints whose symbols branch passes no filter on. *)
Definition drops_filter (e : endpoint) : bool :=
  match e with
  | E_tops | E_last | E_deep => true
  | _ => false
  end.

(** The URL of an endpoint of [http.js] without a query. *)
Definition path (e : endpoint) : string :=
  match e with
  | E_tops => "tops"
  | E_last => "last"
  | E_deep => "deep"
  | E_auction => "deep/auction"
  | E_book => "deep/book"
  | E_opHaltStatus => "deep/op-halt-status"
  | E_officialPrice => "deep/official-price"
  | E_securityEvent => "deep/security-event"
  | E_ssrStatus => "deep/ssr-status"
  | E_systemEvent => "deep/system-event"
  | E_trades => "deep/trades"
  | E_tradeBreak => "deep/trade-breaks"
  | E_tradingStatus => "deep/trading-status"
  | E_hist => "hist"
  | _ => ""
  end.

(** The URL of an endpoint of [http.js] with the query for the symbols
    [joined]; [tops] and [last] end it with [%2b]. *)
Definition symbols_url (e : endpoint) (joined : string) : string :=
  match e with
  | E_tops | E_last => path e ++ "?symbols=" ++ joined ++ "%2b"
  | _ => path e ++ "?symbols=" ++ joined
  end.

(** An empty or omitted symbols argument. *)
Definition empty_or_omitted (v : value) : Prop := v = VUndefined \/ v = VStr "".

(** The property [k] of a record that is neither [undefined] nor [null]. *)
Definition field (k : string) (record : value) : value :=
  match record with
  | VObj props =>
      match JS.lookup k props with
      | Some x => x
      | None => VUndefined
      end
  | _ => VUndefined
  end.

(** The code of a currency pair record, [fromCurrency + toCurrency], which
    throws when an operand does not convert. *)
Definition pair_code {R : Runtime} (record : value) : error + value :=
  JS.add (field "fromCurrency" record) (field "toCurrency" record).

(** The codes of the pair records, from the first to the last. *)
Fixpoint pair_codes {R : Runtime} (records : list value) : error + list value :=
  match records with
  | [] => inr []
  | r :: rest =>
      JS.and_then (pair_code r) (fun code =>
      JS.and_then (pair_codes rest) (fun codes => inr (code :: codes)))
  end.

(** A request in the exchange form [ref-data/exchange/<exchange>/symbols]. *)
Definition exchange_form (c : Call) : Prop :=
  exists u, call_url c = Some (VStr u) /\ String.prefix "ref-data/exchange/" u = true.

(** The claim that the symbols branch of an endpoint passes no filter on:
    no request made for a non-empty symbols argument carries one. *)
Definition no_filter_in_symbols_branch {R : Runtime} (e : endpoint) : Prop :=
  forall symbols token version filter c,
    JS.truthy symbols = true ->
    In c (requests (free e [symbols; token; version; filter])) ->
    call_filter c = VUndefined.

(** The two shapes in which the sources call the request core: the options
    [{url}] followed by the positional token, version and filter
    ([http.js]), and the single object [{url, token, version, filter}]
    (the symbols module). *)
Definition positional_call (u : string) (token version filter : value) : Call :=
  mkCall (url_only u) token version filter.

Definition object_call (u : string) (token version filter : value) : Call :=
  mkCall (url_with u token version filter) VUndefined VUndefined VUndefined.

(** A runtime to evaluate the functions on concrete inputs: every request
    is answered by two symbol records. *)
Definition two_symbols : value :=
  VArr [VObj [("symbol", VStr "AAPL")]; VObj [("symbol", VStr "MSFT")]].

Definition symbols_runtime : Runtime := {|
  Number_toString := fun _ => "0";
  _strOrDate := fun v => inr v;
  respond := fun _ _ => inr two_symbols
|}.

(** A runtime that answers every request by a decoded FX symbols object. *)
Definition usd_jpy : value :=
  VObj [("currencies", VArr [VObj [("code", VStr "USD")]]);
        ("pairs", VArr [VObj [("fromCurrency", VStr "USD"); ("toCurrency", VStr "JPY")]])].

Definition fx_runtime : Runtime := {|
  Number_toString := fun _ => "0";
  _strOrDate := fun v => inr v;
  respond := fun _ _ => inr usd_jpy
|}.

(** ** Notions for the properties of the two modules as a whole *)

(** The endpoints of [http.js]; the others are those of the symbols
    module. *)
Definition in_http (e : endpoint) : bool :=
  match e with
  | E_tops | E_last | E_deep | E_auction | E_book | E_opHaltStatus
  | E_officialPrice | E_securityEvent | E_ssrStatus | E_systemEvent
  | E_trades | E_tradeBreak | E_tradingStatus | E_hist => true
  | _ => false
  end.

(** The list conversions: the endpoints that work on the response. *)
Definition is_list (e : endpoint) : bool :=
  match e with
  | E_symbolsList | E_iexSymbolsList | E_mutualFundSymbolsList | E_otcSymbolsList
  | E_internationalSymbolsList | E_fxSymbolsList | E_optionsSymbolsList
  | E_cryptoSymbolsList => true
  | _ => false
  end.

(** The endpoint that a list conversion calls. *)
Definition converted (e : endpoint) : endpoint :=
  match e with
  | E_symbolsList => E_symbols
  | E_iexSymbolsList => E_iexSymbols
  | E_mutualFundSymbolsList => E_mutualFundSymbols
  | E_otcSymbolsList => E_otcSymbols
  | E_internationalSymbolsList => E_internationalSymbols
  | E_fxSymbolsList => E_fxSymbols
  | E_optionsSymbolsList => E_optionsSymbols
  | E_cryptoSymbolsList => E_cryptoSymbols
  | _ => e
  end.

(** The arguments it calls it with: its own, then the filter ["symbol"];
    [fxSymbolsList] passes no filter. *)
Definition converted_args (e : endpoint) (args : list value) : list value :=
  match e with
  | E_fxSymbolsList => [arg 0 args; arg 1 args]
  | E_internationalSymbolsList =>
      [arg 0 args; arg 1 args; arg 2 args; arg 3 args; VStr "symbol"]
  | _ => [arg 0 args; arg 1 args; VStr "symbol"]
  end.

(** The filter that the request of a list conversion carries. *)
Definition list_filter (e : endpoint) : value :=
  match e with
  | E_fxSymbolsList => VStr ""
  | _ => VStr "symbol"
  end.

(** The arguments of a free function that are its token and its version. *)
Definition token_arg (e : endpoint) (args : list value) : value :=
  arg (leading e) args.

Definition version_arg (e : endpoint) (args : list value) : value :=
  arg (S (leading e)) args.

(** The property [k] of the options of a call. *)
Definition option_of (k : string) (c : Call) : value := field k (call_options c).

(** What the URLs of an endpoint start with: its path in [http.js], and
    [ref-data/] in the symbols module. *)
Definition url_root (e : endpoint) : string :=
  if in_http e then path e else "ref-data/".

(** The form of a request of the endpoint [e] called with [args]: a URL
    under the root of [e]; in [http.js] the options hold the URL alone and
    the token and version arguments are passed by position; in the symbols
    module the options hold the URL, the token and version arguments with
    the empty string for an omitted one, and a filter that is not
    [undefined], and nothing is passed by position. *)
Definition request_of (e : endpoint) (args : list value) (c : Call) : Prop :=
  exists u,
    String.prefix (url_root e) u = true
    /\ if in_http e
       then call_options c = url_only u
            /\ call_token c = token_arg e args
            /\ call_version c = version_arg e args
       else call_options c
            = url_with u (JS.default (token_arg e args) (VStr ""))
                (JS.default (version_arg e args) (VStr ""))
                (option_of "filter" c)
            /\ option_of "filter" c <> VUndefined
            /\ call_token c = VUndefined
            /\ call_version c = VUndefined
            /\ call_filter c = VUndefined.

(** A computation that calls the request core at most once from [log]:
    either it fails with no call made, or it makes one call [c] of the form
    [ok], fails with the error of that call when it has one, and, when
    [direct], settles to what the call settles to. *)
Definition one_request {R : Runtime} (direct : bool) (ok : Call -> Prop)
    (m : M value) (log : list Call) : Prop :=
  (exists err, m log = (inl err, log))
  \/ (exists c,
        ok c
        /\ snd (m log) = (log ++ [c])%list
        /\ (forall err, respond log c = inl err -> fst (m log) = inl err)
        /\ (direct = true -> fst (m log) = respond log c)).

(** A computation that makes no call of the request core. *)
Definition silent {A : Type} (m : M A) : Prop := forall log, snd (m log) = log.

(** Whether every record is provided. *)
Definition all_provided (records : list value) : bool :=
  forallb Common.provided records.

(** The two lists that [fxSymbolsList] makes of a decoded response: the
    codes of the currencies and the codes of the pairs, and a [TypeError]
    when [currencies] or [pairs] is no array, when one of them holds
    [undefined] or [null], and when the [+] of a pair throws. *)
Definition fx_lists {R : Runtime} (fx : value) : error + value :=
  match field "currencies" fx, field "pairs" fx with
  | VArr currencies, VArr pairs =>
      if all_provided currencies && all_provided pairs
      then match pair_codes pairs with
           | inr codes =>
               inr (VArr [VArr (List.map (field "code") currencies); VArr codes])
           | inl _ => inl TypeError
           end
      else inl TypeError
  | _, _ => inl TypeError
  end.

(** A decoded FX symbols object with a pair whose first currency is an
    object with a [toString] property of its own, as a JSON text can hold
    one, and a runtime that answers every request by it. *)
Definition odd_pair : value :=
  VObj [("currencies", VArr []);
        ("pairs", VArr [VObj [("fromCurrency", VObj [("toString", VNum 1%float)]);
                              ("toCurrency", VStr "JPY")]])].

Definition odd_pair_runtime : Runtime := {|
  Number_toString := fun _ => "0";
  _strOrDate := fun v => inr v;
  respond := fun _ _ => inr odd_pair
|}.

(** A decoded FX symbols object with a pair that has no second currency,
    and a runtime that answers every request by it. *)
Definition half_pair : value :=
  VObj [("currencies", VArr []);
        ("pairs", VArr [VObj [("fromCurrency", VStr "USD")]])].

Definition half_pair_runtime : Runtime := {|
  Number_toString := fun _ => "0";
  _strOrDate := fun v => inr v;
  respond := fun _ _ => inr half_pair
|}.

(** A runtime whose every request fails with the status 404. *)
Definition failing_runtime : Runtime := {|
  Number_toString := fun _ => "0";
  _strOrDate := fun v => inr v;
  respond := fun _ _ => inl (RequestError 404%float "Not Found")
|}.

(** A runtime that accepts no date. *)
Definition dateless_runtime : Runtime := {|
  Number_toString := fun _ => "0";
  _strOrDate := fun _ => inl InvalidDateError;
  respond := fun _ _ => inr two_symbols
|}.

(** * Properties *)

(** ** Basic facts *)

Lemma bind_ret {A B : Type} (a : A) (k : A -> M B) (log : list Call) :
  bind (ret a) k log = k a log.
Proof. reflexivity. Qed.

Lemma bind_throw {A B : Type} (e : error) (k : A -> M B) (log : list Call) :
  bind (throw e) k log = (inl e, log).
Proof. reflexivity. Qed.

Lemma truthy_string (s : string) : JS.truthy (VStr s) = true <-> s <> "".
Proof.
  destruct s as [|a s]; simpl; split; intro H.
  - discriminate.
  - now elim H.
  - discriminate.
  - reflexivity.
Qed.

Lemma requests_getJson {R : Runtime} (options token version filter : value) :
  requests (Common._getJson options token version filter)
  = [mkCall options token version filter].
Proof. reflexivity. Qed.

Lemma join_strings {R : Runtime} (sep : string) (l : list string) :
  JS.join_with JS.element_string sep (List.map VStr l) = inr (String.concat sep l).
Proof.
  induction l as [|x [|y r] IH]; try reflexivity.
  change (JS.and_then (JS.join_with JS.element_string sep (List.map VStr (y :: r)))
            (fun t => inr (x ++ sep ++ t))
          = inr (x ++ sep ++ String.concat sep (y :: r))).
  now rewrite IH.
Qed.

(** ** The two call surfaces agree *)

(** C2: for every endpoint, every client and every sequence of arguments,
    the mounted method is the free function called with the same arguments
    and the stored token and version of the client: the two computations
    are equal, so they make the same requests and settle alike. *)
Theorem method_is_free_with_credentials {R : Runtime}
    (e : endpoint) (this : Client) (args : list value) :
  method e this args = free e (with_credentials e this args).
Proof.
  destruct e; destruct args as [|a0 [|a1 [|a2 rest]]]; reflexivity.
Qed.

(** ** [deep] and the single-symbol endpoints *)

Lemma raiseIfNotStr_string (s : string) : Common._raiseIfNotStr (VStr s) = ret tt.
Proof. reflexivity. Qed.

Lemma raiseIfNotStr_rejects (v : value) :
  Common.provided v = true -> JS.is_string v = false ->
  Common._raiseIfNotStr v = throw TypeArgumentError.
Proof.
  intros Hp Hs. unfold Common._raiseIfNotStr. now rewrite Hp, Hs.
Qed.

(** C6: for every non-empty symbol string [s], [deep] calls the request
    core with the URL [deep?symbols=s]; for the empty string and for an
    omitted symbol it calls it with the URL [deep], which has no query. *)
Theorem deep_url {R : Runtime} (s : string) (token version filter : value) :
  s <> "" ->
  Http.deep (VStr s) token version filter
    = Common._getJson (url_only ("deep?symbols=" ++ s)) token version VUndefined
  /\ Http.deep (VStr "") token version filter
    = Common._getJson (url_only "deep") token version filter
  /\ Http.deep VUndefined token version filter
    = Common._getJson (url_only "deep") token version filter.
Proof.
  intro Hs. repeat split.
  destruct s as [|a s]; [now elim Hs | reflexivity].
Qed.

Lemma deep_url_example :
  requests (Http.deep (R := symbols_runtime)
              (VStr "AAPL") (VStr "pk_1") (VStr "stable") (VStr "symbol"))
  = [positional_call "deep?symbols=AAPL" (VStr "pk_1") (VStr "stable") VUndefined].
Proof.
  rewrite (proj1 (deep_url (R := symbols_runtime) "AAPL"
                    (VStr "pk_1") (VStr "stable") (VStr "symbol")
                    ltac:(discriminate))).
  reflexivity.
Defined.

(** C7: a provided argument that is not a string, an array for one, makes
    every endpoint that demands a single symbol fail with
    [TypeArgumentError] (raised by [_raiseIfNotStr], which every one of
    them calls first), and the calls made to the request core are the ones
    made before: no request is issued. *)
Theorem single_symbol_rejects_non_string {R : Runtime}
    (e : endpoint) (symbol token version filter : value) (log : list Call) :
  single_symbol e = true ->
  Common.provided symbol = true ->
  JS.is_string symbol = false ->
  free e [symbol; token; version; filter] log = (inl TypeArgumentError, log).
Proof.
  intros He Hp Hs.
  destruct e; try discriminate He; cbn [free arg nth];
    unfold Http.deep, Http.auction, Http.book, Http.opHaltStatus,
      Http.officialPrice, Http.securityEvent, Http.ssrStatus, Http.systemEvent,
      Http.trades, Http.tradeBreak, Http.tradingStatus;
    rewrite (raiseIfNotStr_rejects symbol Hp Hs); apply bind_throw.
Qed.

Lemma single_symbol_rejects_array :
  free (R := symbols_runtime) E_deep
    [VArr [VStr "AAPL"; VStr "MSFT"]; VStr "pk_1"; VStr "stable"; VUndefined] []
  = (inl TypeArgumentError, []).
Proof.
  apply (single_symbol_rejects_non_string (R := symbols_runtime) E_deep);
    reflexivity.
Defined.

Lemma truthy_provided (v : value) : JS.truthy v = true -> Common.provided v = true.
Proof. destruct v; simpl; intro H; (discriminate || reflexivity). Qed.

(** ** [tops] and [last] *)

(** C8: for a non-empty symbols argument that is a string or a list of
    strings, of normalized list [l], [tops] and [last] call the request
    core with a URL whose [symbols] parameter is the strings of [l] joined
    by commas and followed by [%2b], the encoded [+]. *)
Theorem tops_last_symbols_parameter {R : Runtime}
    (symbols token version filter : value) (l : list string) :
  JS.truthy symbols = true ->
  Common._strToList symbols = VArr (List.map VStr l) ->
  Http.tops symbols token version filter
    = Common._getJson (url_only ("tops?symbols=" ++ String.concat "," l ++ "%2b"))
        token version VUndefined
  /\ Http.last symbols token version filter
    = Common._getJson (url_only ("last?symbols=" ++ String.concat "," l ++ "%2b"))
        token version VUndefined.
Proof.
  intros Ht Hl. unfold Http.tops, Http.last.
  rewrite Ht, Hl. cbn [Lang.join].
  rewrite join_strings. split; reflexivity.
Qed.

Lemma tops_symbols_parameter_example :
  requests (Http.tops (R := symbols_runtime)
              (VArr [VStr "AAPL"; VStr "MSFT"]) (VStr "pk_1") (VStr "stable") VUndefined)
  = [positional_call "tops?symbols=AAPL,MSFT%2b" (VStr "pk_1") (VStr "stable") VUndefined].
Proof.
  rewrite (proj1 (tops_last_symbols_parameter (R := symbols_runtime)
                    (VArr [VStr "AAPL"; VStr "MSFT"]) (VStr "pk_1") (VStr "stable")
                    VUndefined ["AAPL"; "MSFT"] eq_refl eq_refl)).
  reflexivity.
Defined.

(** A single string is normalized to the list of that string. *)
Lemma strToList_string (s : string) :
  Common._strToList (VStr s) = VArr (List.map VStr [s]).
Proof. reflexivity. Qed.

(** A list of strings is its own normalization. *)
Lemma strToList_list (l : list string) :
  Common._strToList (VArr (List.map VStr l)) = VArr (List.map VStr l).
Proof. reflexivity. Qed.

(** ** [internationalSymbols] *)

(** C9: [internationalSymbols] called with the region ["us"], whatever the
    exchange, and called with neither region nor exchange make the same
    call of the request core, with the URL [ref-data/region/us/symbols]. *)
Theorem internationalSymbols_us_default {R : Runtime}
    (exchange token version filter : value) :
  Symbols.internationalSymbols (VStr "us") exchange token version filter
    = Symbols.internationalSymbols VUndefined VUndefined token version filter
  /\ Symbols.internationalSymbols VUndefined VUndefined token version filter
    = Common._getJson
        (url_with "ref-data/region/us/symbols"
           (JS.default token (VStr "")) (JS.default version (VStr ""))
           (JS.default filter (VStr "")))
        VUndefined VUndefined VUndefined.
Proof. split; reflexivity. Qed.

Lemma requests_internationalSymbols {R : Runtime}
    (region exchange token version filter : value) (c : Call) :
  In c (requests (Symbols.internationalSymbols region exchange token version filter)) ->
  exists x,
    call_url c
    = Some (VStr (if JS.truthy region
                  then "ref-data/region/" ++ x ++ "/symbols"
                  else if JS.truthy exchange
                  then "ref-data/exchange/" ++ x ++ "/symbols"
                  else "ref-data/region/us/symbols")).
Proof.
  unfold Symbols.internationalSymbols, requests, bind, lift.
  destruct (JS.truthy region); [|destruct (JS.truthy exchange)].
  - destruct (JS.to_string region) as [e|r]; [intros []|].
    intros [<-|[]]. now exists r.
  - destruct (JS.to_string exchange) as [e|x]; [intros []|].
    intros [<-|[]]. now exists x.
  - intros [<-|[]]. now exists "".
Qed.

(** C10: a non-empty region decides the call of [internationalSymbols]:
    the exchange changes nothing, and the URL is
    [ref-data/region/<region>/symbols], where [<region>] is the region as
    the template literal converts it, a string being itself; with an
    empty region and a non-empty exchange the URL is
    [ref-data/exchange/<exchange>/symbols]; and a request in the exchange
    form is made in that case only. *)
Theorem internationalSymbols_region_first {R : Runtime}
    (region exchange token version filter : value) :
  (JS.truthy region = true ->
   (forall exchange',
      Symbols.internationalSymbols region exchange' token version filter
      = Symbols.internationalSymbols region exchange token version filter)
   /\ (forall r, JS.to_string region = inr r ->
       Symbols.internationalSymbols region exchange token version filter
       = Common._getJson
           (url_with ("ref-data/region/" ++ r ++ "/symbols")
              (JS.default token (VStr "")) (JS.default version (VStr ""))
              (JS.default filter (VStr "")))
           VUndefined VUndefined VUndefined)
   /\ (forall s, region = VStr s ->
       Symbols.internationalSymbols region exchange token version filter
       = Common._getJson
           (url_with ("ref-data/region/" ++ s ++ "/symbols")
              (JS.default token (VStr "")) (JS.default version (VStr ""))
              (JS.default filter (VStr "")))
           VUndefined VUndefined VUndefined))
  /\ (JS.truthy region = false -> JS.truthy exchange = true ->
      forall x, JS.to_string exchange = inr x ->
      Symbols.internationalSymbols region exchange token version filter
      = Common._getJson
          (url_with ("ref-data/exchange/" ++ x ++ "/symbols")
             (JS.default token (VStr "")) (JS.default version (VStr ""))
             (JS.default filter (VStr "")))
          VUndefined VUndefined VUndefined)
  /\ (forall c,
        In c (requests
                (Symbols.internationalSymbols region exchange token version filter)) ->
        exchange_form c ->
        JS.truthy region = false /\ JS.truthy exchange = true).
Proof.
  split; [|split].
  - intros Hr. unfold Symbols.internationalSymbols. rewrite Hr.
    split; [reflexivity|]. split.
    + intros r Hconv. now rewrite Hconv.
    + intros s ->. reflexivity.
  - intros Hr He x Hconv. unfold Symbols.internationalSymbols.
    now rewrite Hr, He, Hconv.
  - intros c Hc (u & Hu & Hp).
    destruct (requests_internationalSymbols _ _ _ _ _ _ Hc) as (x & Hx).
    rewrite Hx in Hu.
    destruct (JS.truthy region); [injection Hu as <-; discriminate Hp|].
    destruct (JS.truthy exchange); [now split|].
    injection Hu as <-. discriminate Hp.
Qed.

Lemma internationalSymbols_region_first_example :
  requests (Symbols.internationalSymbols (R := symbols_runtime)
              (VStr "ca") (VStr "tse") (VStr "pk_1") (VStr "stable") VUndefined)
  = [object_call "ref-data/region/ca/symbols" (VStr "pk_1") (VStr "stable") (VStr "")].
Proof.
  rewrite (proj1 (proj2 (proj1 (internationalSymbols_region_first
                                  (R := symbols_runtime)
                                  (VStr "ca") (VStr "tse") (VStr "pk_1") (VStr "stable")
                                  VUndefined)
                           eq_refl))
             "ca" eq_refl).
  reflexivity.
Defined.

(** ** The branch on the symbols argument *)

(** The symbols branch of [tops], [last] and [deep] passes no filter on,
    whatever the non-empty argument: a request that is made carries none. *)
Lemma drops_filter_sound {R : Runtime} (e : endpoint) :
  drops_filter e = true -> no_filter_in_symbols_branch e.
Proof.
  intros He symbols token version filter c Ht.
  destruct e; try discriminate He; cbn [free arg nth];
    unfold requests, Http.tops, Http.last, Http.deep; rewrite Ht.
  1,2: destruct (Common._strToList symbols) as [| | b | n | s | l | props];
    cbn; try contradiction;
    destruct (JS.join_with JS.element_string "," l); cbn; intro Hc;
    try contradiction; destruct Hc as [<-|[]]; reflexivity.
  unfold Common._raiseIfNotStr, bind, lift.
  destruct (Common.provided symbols && negb (JS.is_string symbols));
    [cbn; contradiction|].
  destruct (JS.to_string symbols); cbn; intro Hc;
    try contradiction; destruct Hc as [<-|[]]; reflexivity.
Qed.

(** C1, as stated, fails: [auction] called with the symbol ["AAPL"] and the
    filter ["symbol"] makes a request that carries the filter, so its
    symbols branch does pass the filter on. *)
Lemma auction_forwards_filter :
  ~ no_filter_in_symbols_branch (R := symbols_runtime) E_auction.
Proof.
  intro H.
  specialize (H (VStr "AAPL") (VStr "pk_1") (VStr "stable") (VStr "symbol")
                (positional_call "deep/auction?symbols=AAPL"
                   (VStr "pk_1") (VStr "stable") (VStr "symbol"))
                eq_refl (or_introl eq_refl)).
  discriminate H.
Qed.

(** C1, amended: every endpoint that branches on its symbols argument
    calls the request core with its plain URL and the filter of the caller
    when the argument is omitted or the empty string, and with the URL
    that carries the symbols when the argument is a non-empty string or,
    for [tops] and [last], a non-empty list of strings; in that branch
    [tops], [last] and [deep] pass no filter on, and the ten other
    endpoints pass the filter of the caller on. *)
Theorem symbols_branch {R : Runtime}
    (e : endpoint) (symbols token version filter : value) :
  branches_on_symbols e = true ->
  (empty_or_omitted symbols ->
   free e [symbols; token; version; filter]
   = Common._getJson (url_only (path e)) token version filter)
  /\ (forall s, symbols = VStr s -> s <> "" ->
      free e [symbols; token; version; filter]
      = Common._getJson (url_only (symbols_url e s)) token version
          (if drops_filter e then VUndefined else filter))
  /\ (forall l, symbols = VArr (List.map VStr l) -> l <> [] ->
      single_symbol e = false ->
      free e [symbols; token; version; filter]
      = Common._getJson (url_only (symbols_url e (String.concat "," l)))
          token version VUndefined).
Proof.
  intro He. split; [|split].
  - intros [-> | ->]; destruct e; try discriminate He; reflexivity.
  - intros s -> Hs. destruct s as [|a s]; [now elim Hs|].
    destruct e; try discriminate He; reflexivity.
  - intros l -> _ Hsingle.
    destruct e; try discriminate He; try discriminate Hsingle;
      cbn [free arg nth]; unfold Http.tops, Http.last;
      cbn [JS.truthy Common._strToList Lang.join];
      rewrite join_strings; reflexivity.
Qed.

Lemma symbols_branch_example :
  requests (free (R := symbols_runtime) E_auction
              [VStr "AAPL"; VStr "pk_1"; VStr "stable"; VStr "symbol"])
  = [positional_call "deep/auction?symbols=AAPL"
       (VStr "pk_1") (VStr "stable") (VStr "symbol")].
Proof.
  rewrite (proj1 (proj2 (symbols_branch (R := symbols_runtime) E_auction
                           (VStr "AAPL") (VStr "pk_1") (VStr "stable") (VStr "symbol")
                           eq_refl))
             "AAPL" eq_refl ltac:(discriminate)).
  reflexivity.
Defined.

(** ** The list conversions *)

Lemma get_provided (k : string) (record : value) :
  Common.provided record = true -> Lang.get record k = ret (field k record).
Proof.
  destruct record as [| | b | n | s | l | props]; try discriminate; intros _;
    try reflexivity.
  simpl. now destruct (JS.lookup k props).
Qed.

(** [map] with a property read as callback is the list map of that read,
    as long as no record is [undefined] or [null]. *)
Lemma map_each_get (k : string) (records : list value) (log : list Call) :
  Forall (fun r => Common.provided r = true) records ->
  map_each (fun record => Lang.get record k) records log
  = (inr (List.map (field k) records), log).
Proof.
  induction 1 as [|r records Hr _ IH]; [reflexivity|].
  cbn [map_each List.map]. unfold bind at 1.
  rewrite (get_provided k r Hr). cbn [ret].
  unfold bind at 1. now rewrite IH.
Qed.

(** A [forEach] whose callback pushes [g record] fills the array with the
    images of the records, in their order, after what it held. *)
Lemma each_push (f : list value -> value -> M (list value)) (g : value -> value)
    (records : list value) :
  Forall (fun r => forall acc, f acc r = ret (push acc (g r))) records ->
  forall (acc : list value) (log : list Call),
    each f acc records log = (inr (acc ++ List.map g records)%list, log).
Proof.
  induction 1 as [|r records Hr _ IH]; intros acc log.
  - cbn. now rewrite app_nil_r.
  - cbn [each List.map]. unfold bind. rewrite Hr. cbn [ret].
    rewrite IH. unfold push. now rewrite <- app_assoc.
Qed.

(** The rejection of the underlying call is the rejection of the list
    conversion, with the same requests made. *)
Lemma convertToList_error (res : M value) (e : error) (log log' : list Call) :
  res log = (inl e, log') -> Symbols.convertToList res log = (inl e, log').
Proof.
  intro H. unfold Symbols.convertToList, bind. now rewrite H.
Qed.

(** C4: [symbolsList(token, version)] is the call [symbols(token, version,
    "symbol")] with every record of the array it resolves to replaced by
    its [symbol] property, in the same order and number, and with the same
    requests made; for the response [[{symbol:"AAPL"},{symbol:"MSFT"}]]
    the result is [["AAPL","MSFT"]]. *)
Theorem symbolsList_projects_symbol {R : Runtime}
    (token version : value) (records : list value) (log log' : list Call) :
  Symbols.symbols token version (VStr "symbol") log = (inr (VArr records), log') ->
  Forall (fun r => Common.provided r = true) records ->
  Symbols.symbolsList token version
    = Symbols.convertToList (Symbols.symbols token version (VStr "symbol"))
  /\ Symbols.symbolsList token version log
     = (inr (VArr (List.map (field "symbol") records)), log')
  /\ length (List.map (field "symbol") records) = length records
  /\ (VArr records = two_symbols ->
      Symbols.symbolsList token version log
      = (inr (VArr [VStr "AAPL"; VStr "MSFT"]), log')).
Proof.
  intros Hres Hrec.
  assert (Hlist : Symbols.symbolsList token version log
                  = (inr (VArr (List.map (field "symbol") records)), log')).
  { unfold Symbols.symbolsList, Symbols.convertToList.
    unfold bind at 1. rewrite Hres. cbn [Lang.map].
    unfold bind. now rewrite map_each_get. }
  split; [reflexivity|]. split; [exact Hlist|]. split; [apply length_map|].
  intro Htwo. injection Htwo as ->. exact Hlist.
Qed.

Lemma symbolsList_example :
  outcome (Symbols.symbolsList (R := symbols_runtime) (VStr "pk_1") (VStr "stable"))
  = inr (VArr [VStr "AAPL"; VStr "MSFT"]).
Proof.
  unfold outcome.
  rewrite (proj1 (proj2 (symbolsList_projects_symbol (R := symbols_runtime)
                           (VStr "pk_1") (VStr "stable")
                           [VObj [("symbol", VStr "AAPL")]; VObj [("symbol", VStr "MSFT")]]
                           []
                           [object_call "ref-data/symbols"
                              (VStr "pk_1") (VStr "stable") (VStr "symbol")]
                           eq_refl
                           ltac:(repeat constructor)))).
  reflexivity.
Defined.

(** The [+] of two strings is their concatenation. *)
Lemma add_strings {R : Runtime} (a b : string) :
  JS.add (VStr a) (VStr b) = inr (VStr (a ++ b)).
Proof. reflexivity. Qed.

Lemma pair_code_strings {R : Runtime} (record : value) (a b : string) :
  field "fromCurrency" record = VStr a ->
  field "toCurrency" record = VStr b ->
  pair_code record = inr (VStr (a ++ b)).
Proof. unfold pair_code. now intros -> ->. Qed.

(** Induction on a value through the elements of an array. *)
Lemma value_arr_ind (P : value -> Prop) :
  P VUndefined -> P VNull -> (forall b, P (VBool b)) -> (forall n, P (VNum n)) ->
  (forall s, P (VStr s)) -> (forall l, Forall P l -> P (VArr l)) ->
  (forall props, P (VObj props)) ->
  forall v, P v.
Proof.
  intros Hu Hn Hb Hf Hs Ha Ho. fix IH 1.
  intros [| | b | n | s | l | props];
    [exact Hu | exact Hn | apply Hb | apply Hf | apply Hs | | apply Ho].
  apply Ha. induction l as [|x l IHl]; constructor; [apply IH | exact IHl].
Qed.

Lemma join_with_error (f : value -> error + string) (sep : string) (l : list value) :
  Forall (fun x => forall e, f x = inl e -> e = TypeError) l ->
  forall e, JS.join_with f sep l = inl e -> e = TypeError.
Proof.
  induction 1 as [|x l Hx _ IH]; intros e; [discriminate|].
  destruct l as [|y l]; [apply Hx|].
  change (JS.join_with f sep (x :: y :: l))
    with (JS.and_then (f x) (fun s =>
          JS.and_then (JS.join_with f sep (y :: l)) (fun t => inr (s ++ sep ++ t)))).
  destruct (f x) as [e1|s] eqn:Hfx; cbn [JS.and_then].
  - intros [= <-]. now apply Hx.
  - destruct (JS.join_with f sep (y :: l)) as [e2|t]; cbn [JS.and_then].
    + intros [= <-]. now apply IH.
    + discriminate.
Qed.

(** A conversion to a string throws nothing but a [TypeError]. *)
Lemma to_string_error {R : Runtime} (v : value) (e : error) :
  JS.to_string v = inl e -> e = TypeError.
Proof.
  revert e. induction v as [| | b | n | s | l IH | props] using value_arr_ind;
    intro e; try discriminate.
  - destruct b; discriminate.
  - cbn [JS.to_string]. apply join_with_error.
    eapply Forall_impl; [|exact IH]. intros x Hx e'.
    destruct x; try discriminate; apply Hx.
  - cbn [JS.to_string]. destruct (JS.lookup "toString" props); [|discriminate].
    now intros [= <-].
Qed.

Lemma to_primitive_error {R : Runtime} (v : value) (e : error) :
  JS.to_primitive v = inl e -> e = TypeError.
Proof.
  destruct v; try discriminate; unfold JS.to_primitive;
    match goal with |- context [JS.to_string ?x] =>
      destruct (JS.to_string x) eqn:Hx end;
    cbn [JS.and_then]; try discriminate; intros [= <-];
    now apply to_string_error in Hx.
Qed.

(** A [+] throws nothing but a [TypeError]. *)
Lemma add_error {R : Runtime} (a b : value) (e : error) :
  JS.add a b = inl e -> e = TypeError.
Proof.
  unfold JS.add.
  destruct (JS.to_primitive a) as [ea|pa] eqn:Ha; cbn [JS.and_then].
  { intros [= <-]. now apply to_primitive_error in Ha. }
  destruct (JS.to_primitive b) as [eb|pb] eqn:Hb; cbn [JS.and_then].
  { intros [= <-]. now apply to_primitive_error in Hb. }
  destruct pa, pb; try discriminate;
    match goal with |- context [JS.to_string ?x] =>
      destruct (JS.to_string x) eqn:Hx end;
    cbn [JS.and_then]; try discriminate; intros [= <-];
    now apply to_string_error in Hx.
Qed.

Lemma get_null (k : string) (record : value) :
  Common.provided record = false -> Lang.get record k = throw TypeError.
Proof. destruct record; try discriminate; reflexivity. Qed.

Lemma all_provided_Forall (records : list value) :
  all_provided records = true -> Forall (fun r => Common.provided r = true) records.
Proof. intro H. apply Forall_forall. now apply forallb_forall. Qed.

Lemma Forall_all_provided (records : list value) :
  Forall (fun r => Common.provided r = true) records -> all_provided records = true.
Proof. intro H. apply forallb_forall. now apply Forall_forall. Qed.

(** A [forEach] whose callback pushes the image of a provided record, and
    throws [TypeError] on another one, fills the array as long as every
    record is provided, and fails otherwise; it makes no call. *)
Lemma each_push_or_fail (f : list value -> value -> M (list value))
    (g : value -> value) (records : list value) :
  (forall acc r, Common.provided r = true -> f acc r = ret (push acc (g r))) ->
  (forall acc r, Common.provided r = false -> f acc r = throw TypeError) ->
  forall (acc : list value) (log : list Call),
    each f acc records log
    = (if all_provided records
       then inr (acc ++ List.map g records)%list
       else inl TypeError, log).
Proof.
  intros Hok Hfail. induction records as [|r records IH]; intros acc log.
  - cbn. now rewrite app_nil_r.
  - cbn [each all_provided forallb List.map]. unfold bind.
    destruct (Common.provided r) eqn:Hr.
    + rewrite (Hok acc r Hr). cbn [ret andb]. rewrite IH.
      fold (all_provided records). unfold push.
      now rewrite <- app_assoc.
    + now rewrite (Hfail acc r Hr).
Qed.

(** The callback of the loop over the pairs pushes the code of a record,
    and fails with [TypeError] on a record that is [undefined] or [null] or
    whose [+] throws. *)
Lemma pair_callback {R : Runtime} (acc : list value) (r : value) (log : list Call) :
  (fromCurrency <- Lang.get r "fromCurrency" ;;
   toCurrency <- Lang.get r "toCurrency" ;;
   code <- lift (JS.add fromCurrency toCurrency) ;;
   ret (push acc code)) log
  = (if Common.provided r
     then match pair_code r with
          | inr code => inr (push acc code)
          | inl _ => inl TypeError
          end
     else inl TypeError, log).
Proof.
  destruct (Common.provided r) eqn:Hr.
  - rewrite !(get_provided _ r Hr). unfold bind, lift, ret.
    change (JS.add (field "fromCurrency" r) (field "toCurrency" r))
      with (pair_code r).
    destruct (pair_code r) as [e|code] eqn:Hcode; [|reflexivity].
    apply add_error in Hcode. now subst e.
  - now rewrite (get_null "fromCurrency" r Hr).
Qed.

(** The loop over the pairs pushes the code of every record, and fails
    with [TypeError] at a record that is [undefined] or [null] or whose
    [+] throws; it makes no call. *)
Lemma each_pair_code {R : Runtime} (records : list value) :
  forall (acc : list value) (log : list Call),
    each (fun ret1 record =>
            fromCurrency <- Lang.get record "fromCurrency" ;;
            toCurrency <- Lang.get record "toCurrency" ;;
            code <- lift (JS.add fromCurrency toCurrency) ;;
            ret (push ret1 code))
         acc records log
    = (if all_provided records
       then match pair_codes records with
            | inr codes => inr (acc ++ codes)%list
            | inl _ => inl TypeError
            end
       else inl TypeError, log).
Proof.
  induction records as [|r records IH]; intros acc log.
  - cbn. now rewrite app_nil_r.
  - cbn [each all_provided forallb pair_codes]. unfold bind at 1.
    rewrite pair_callback. fold (all_provided records).
    destruct (Common.provided r); [|reflexivity].
    destruct (pair_code r) as [e|code]; cbn [JS.and_then andb].
    + now destruct (all_provided records).
    + rewrite IH. destruct (all_provided records); [|reflexivity].
      destruct (pair_codes records); cbn [JS.and_then]; [reflexivity|].
      unfold push. now rewrite <- app_assoc.
Qed.

(** [fxSymbolsList] is the FX symbols call followed by the making of the
    two lists, with the calls of the FX symbols call. *)
Lemma fxSymbolsList_run {R : Runtime} (token version fx : value)
    (log log' : list Call) :
  Symbols.fxSymbols token version VUndefined log = (inr fx, log') ->
  Symbols.fxSymbolsList token version log = (fx_lists fx, log').
Proof.
  intro Hfx. unfold Symbols.fxSymbolsList, fx_lists. unfold bind at 1. rewrite Hfx.
  destruct (Common.provided fx) eqn:Hprov.
  2:{ rewrite (get_null "currencies" fx Hprov).
      destruct fx; try discriminate Hprov; reflexivity. }
  rewrite (get_provided "currencies" fx Hprov), bind_ret.
  destruct (field "currencies" fx) as [| | b | n | s | currencies | props];
    try reflexivity.
  cbn [Lang.forEach]. unfold bind at 1.
  rewrite (each_push_or_fail _ (field "code")).
  2:{ intros acc r Hr. now rewrite (get_provided "code" r Hr). }
  2:{ intros acc r Hr. now rewrite (get_null "code" r Hr). }
  destruct (all_provided currencies).
  2:{ destruct (field "pairs" fx); reflexivity. }
  rewrite (get_provided "pairs" fx Hprov), bind_ret.
  destruct (field "pairs" fx) as [| | b | n | s | pairs | props];
    try reflexivity.
  cbn [Lang.forEach andb]. unfold bind at 1.
  rewrite each_pair_code.
  destruct (all_provided pairs); [|reflexivity].
  now destruct (pair_codes pairs).
Qed.

(** The codes of pair records whose two currencies are strings are the
    concatenations of the two. *)
Lemma pair_codes_strings {R : Runtime} (pairs : list value)
    (names : list (string * string)) :
  Forall2 (fun record name =>
             field "fromCurrency" record = VStr (fst name)
             /\ field "toCurrency" record = VStr (snd name)) pairs names ->
  pair_codes pairs
  = inr (List.map (fun name => VStr (fst name ++ snd name)) names).
Proof.
  induction 1 as [|record name pairs names [Hfrom Hto] _ IH]; [reflexivity|].
  cbn [pair_codes List.map].
  rewrite (pair_code_strings record _ _ Hfrom Hto), IH. reflexivity.
Qed.

(** C5: when the FX symbols call resolves to an object whose [currencies]
    and [pairs] are arrays of records, the [fromCurrency] and the
    [toCurrency] of every pair being strings, [fxSymbolsList] resolves to
    the pair of the [code] of every currency, in order, and of the
    concatenation of [fromCurrency] and [toCurrency] of every pair, in
    order; for [{currencies:[{code:"USD"}], pairs:[{fromCurrency:"USD",
    toCurrency:"JPY"}]}] it resolves to [[["USD"], ["USDJPY"]]]. *)
Theorem fxSymbolsList_partitions {R : Runtime}
    (token version fx : value) (currencies pairs : list value)
    (names : list (string * string)) (log log' : list Call) :
  Symbols.fxSymbols token version VUndefined log = (inr fx, log') ->
  field "currencies" fx = VArr currencies ->
  field "pairs" fx = VArr pairs ->
  Forall (fun r => Common.provided r = true) currencies ->
  Forall (fun r => Common.provided r = true) pairs ->
  Forall2 (fun record name =>
             field "fromCurrency" record = VStr (fst name)
             /\ field "toCurrency" record = VStr (snd name)) pairs names ->
  Symbols.fxSymbolsList token version log
    = (inr (VArr [VArr (List.map (field "code") currencies);
                  VArr (List.map (fun name => VStr (fst name ++ snd name)) names)]),
       log')
  /\ length names = length pairs
  /\ (fx = usd_jpy ->
      Symbols.fxSymbolsList token version log
      = (inr (VArr [VArr [VStr "USD"]; VArr [VStr "USDJPY"]]), log')).
Proof.
  intros Hfx Hcur Hpairs Hc Hp Hnames.
  assert (Hlist : Symbols.fxSymbolsList token version log
                  = (inr (VArr [VArr (List.map (field "code") currencies);
                                VArr (List.map (fun name => VStr (fst name ++ snd name))
                                        names)]), log')).
  { rewrite (fxSymbolsList_run token version fx log log' Hfx).
    unfold fx_lists. rewrite Hcur, Hpairs.
    rewrite (Forall_all_provided _ Hc), (Forall_all_provided _ Hp).
    now rewrite (pair_codes_strings pairs names Hnames). }
  split; [exact Hlist|]. split.
  { symmetry. exact (Forall2_length Hnames). }
  intros ->. rewrite Hlist.
  injection Hcur as <-. injection Hpairs as <-.
  inversion Hnames as [|r n rs ns [Hfrom Hto] Hrest]; subst.
  inversion Hrest; subst. destruct n as [a b].
  injection Hfrom as <-. injection Hto as <-. reflexivity.
Qed.

Lemma fxSymbolsList_example :
  outcome (Symbols.fxSymbolsList (R := fx_runtime) (VStr "pk_1") (VStr "stable"))
  = inr (VArr [VArr [VStr "USD"]; VArr [VStr "USDJPY"]]).
Proof.
  unfold outcome.
  rewrite (proj2 (proj2 (fxSymbolsList_partitions (R := fx_runtime)
                    (VStr "pk_1") (VStr "stable") usd_jpy
                    [VObj [("code", VStr "USD")]]
                    [VObj [("fromCurrency", VStr "USD"); ("toCurrency", VStr "JPY")]]
                    [("USD", "JPY")]
                    []
                    [object_call "ref-data/fx/symbols"
                       (VStr "pk_1") (VStr "stable") (VStr "")]
                    eq_refl eq_refl eq_refl
                    ltac:(repeat constructor) ltac:(repeat constructor)
                    ltac:(repeat constructor)))
             eq_refl).
  reflexivity.
Defined.

(** ** The two shapes of a call of the request core

    [http.js] passes [{url}] and then the token, the version and the
    filter; the symbols module passes the one object [{url, token, version,
    filter}].  The request core receives different arguments in the two
    shapes, so whether they stand for the same request is decided by its
    body alone, which is not among the sources: a core that reads both
    shapes alike and a core that tells them apart are both possible. *)
Lemma call_shapes_differ (u : string) (token version filter : value) :
  positional_call u token version filter <> object_call u token version filter.
Proof. discriminate. Qed.

Lemma call_shapes_left_open :
  (exists R : Runtime, forall past u token version filter,
      respond past (positional_call u token version filter)
      = respond past (object_call u token version filter))
  /\ (exists R : Runtime, exists past u token version filter,
         respond past (positional_call u token version filter)
         <> respond past (object_call u token version filter)).
Proof.
  split.
  - exists symbols_runtime. reflexivity.
  - exists {| Number_toString := fun _ => "0";
              _strOrDate := fun v => inr v;
              respond := fun _ c => inr (call_token c) |}.
    exists [], "tops", (VStr "pk_1"), (VStr "stable"), VUndefined.
    discriminate.
Qed.

(** * Properties of the two modules as a whole *)

(** ** Auxiliary facts *)

Lemma app_one_neq {A : Type} (l : list A) (x : A) : (l ++ [x])%list <> l.
Proof.
  intro H. apply (f_equal (@length A)) in H.
  rewrite length_app in H. simpl in H. lia.
Qed.

Lemma app_one_inj {A : Type} (l : list A) (x y : A) :
  (l ++ [x])%list = (l ++ [y])%list -> x = y.
Proof. intro H. apply app_inv_head in H. now injection H. Qed.

Lemma default_defined (v : value) (s : string) : JS.default v (VStr s) <> VUndefined.
Proof. destruct v; discriminate. Qed.

Lemma silent_ret {A : Type} (a : A) : silent (ret a).
Proof. intro log. reflexivity. Qed.

Lemma silent_throw {A : Type} (e : error) : silent (@throw A e).
Proof. intro log. reflexivity. Qed.

Lemma silent_lift {A : Type} (r : error + A) : silent (lift r).
Proof. intro log. reflexivity. Qed.

Lemma silent_bind {A B : Type} (m : M A) (k : A -> M B) :
  silent m -> (forall a, silent (k a)) -> silent (bind m k).
Proof.
  intros Hm Hk log. unfold bind. specialize (Hm log).
  destruct (m log) as [[e|a] log1]; simpl in Hm; subst log1; [reflexivity|apply Hk].
Qed.

Lemma silent_get (v : value) (k : string) : silent (Lang.get v k).
Proof.
  destruct v; try apply silent_ret; try apply silent_throw.
  simpl. destruct (JS.lookup k props); apply silent_ret.
Qed.

Lemma silent_map_each {A B : Type} (f : A -> M B) (l : list A) :
  (forall x, silent (f x)) -> silent (map_each f l).
Proof.
  intro Hf. induction l as [|x l IH]; [apply silent_ret|].
  cbn [map_each]. apply silent_bind; [apply Hf|]. intro y.
  apply silent_bind; [exact IH|]. intro ys. apply silent_ret.
Qed.

Lemma silent_each {A S : Type} (f : S -> A -> M S) (l : list A) (acc : S) :
  (forall s x, silent (f s x)) -> silent (each f acc l).
Proof.
  intro Hf. revert acc. induction l as [|x l IH]; intro acc; [apply silent_ret|].
  cbn [each]. apply silent_bind; [apply Hf|]. intro acc'. apply IH.
Qed.

Lemma silent_map (v : value) (f : value -> M value) :
  (forall x, silent (f x)) -> silent (Lang.map v f).
Proof.
  intro Hf. destruct v; try apply silent_throw.
  cbn [Lang.map]. apply silent_bind; [now apply silent_map_each|].
  intro ys. apply silent_ret.
Qed.

Lemma silent_forEach {S : Type} (v : value) (f : S -> value -> M S) (acc : S) :
  (forall s x, silent (f s x)) -> silent (Lang.forEach v f acc).
Proof.
  intro Hf. destruct v; try apply silent_throw. now apply silent_each.
Qed.

Ltac silence :=
  repeat first
    [ apply silent_ret | apply silent_throw | apply silent_lift | apply silent_get
    | apply silent_map; intros | apply silent_forEach; intros
    | apply silent_bind; [|intros] ].

(** The calls made by a computation followed by a silent one are the
    calls of the first. *)
Lemma bind_silent_requests {A B : Type} (m : M A) (k : A -> M B) (log : list Call) :
  (forall a, silent (k a)) -> snd (bind m k log) = snd (m log).
Proof.
  intro Hk. unfold bind. destruct (m log) as [[e|a] log1]; [reflexivity|apply Hk].
Qed.

Lemma one_request_run {R : Runtime} (direct : bool) (ok : Call -> Prop)
    (m : M value) (log : list Call) (c : Call) :
  m log = (respond log c, (log ++ [c])%list) -> ok c -> one_request direct ok m log.
Proof.
  intros Hm Hok. right. exists c. rewrite Hm. repeat split; auto.
Qed.

Lemma one_request_fail {R : Runtime} (direct : bool) (ok : Call -> Prop)
    (m : M value) (log : list Call) (err : error) :
  m log = (inl err, log) -> one_request direct ok m log.
Proof. intro Hm. left. now exists err. Qed.

Lemma one_request_bind {R : Runtime} (ok : Call -> Prop)
    (m : M value) (k : value -> M value) (log : list Call) :
  one_request true ok m log -> (forall v, silent (k v)) ->
  one_request false ok (bind m k) log.
Proof.
  intros [[err Hm] | (c & Hok & Hs & He & Hd)] Hk.
  - left. exists err. unfold bind. now rewrite Hm.
  - right. exists c. split; [exact Hok|].
    rewrite (bind_silent_requests m k log Hk). split; [exact Hs|].
    split; [|discriminate].
    intros err Herr. specialize (Hd eq_refl). unfold bind.
    destruct (m log) as [[e|a] log1]; simpl in Hd.
    + rewrite Herr in Hd. exact Hd.
    + rewrite Herr in Hd. discriminate Hd.
Qed.

Ltac solve_request_of :=
  unfold request_of; eexists; split; cycle 1;
  [ cbn; repeat split; try reflexivity;
    first [ apply default_defined | discriminate ]
  | reflexivity ].

Ltac run_request := eapply one_request_run; [reflexivity | solve_request_of].
Ltac fail_first := eapply one_request_fail; reflexivity.

Ltac settle :=
  repeat (cbv beta iota delta [bind lift ret throw Lang.join];
          match goal with
          | |- context [if JS.truthy ?x then _ else _] => destruct (JS.truthy x)
          | |- context [JS.to_string ?x] => destruct (JS.to_string x)
          | |- context [JS.join_with ?f ?s ?l] => destruct (JS.join_with f s l)
          | |- context [_strOrDate ?x] => destruct (_strOrDate x)
          end);
  first [run_request | fail_first].

Ltac single_symbol_request :=
  unfold Common._raiseIfNotStr;
  match goal with
  | |- context [Common.provided ?x && negb (JS.is_string ?x)] =>
      destruct (Common.provided x && negb (JS.is_string x));
      [ fail_first | settle ]
  end.

(** The direct endpoints of the symbols module make their one call. *)
Lemma converted_one_request {R : Runtime} (e : endpoint) (args : list value)
    (log : list Call) :
  is_list e = true ->
  one_request true (request_of e args)
    (free (converted e) (converted_args e args)) log.
Proof.
  intro He. destruct e; try discriminate He;
    cbn [converted converted_args free arg nth];
    unfold Symbols.symbols, Symbols.iexSymbols, Symbols.mutualFundSymbols,
      Symbols.otcSymbols, Symbols.internationalSymbols, Symbols.fxSymbols,
      Symbols.optionsSymbols, Symbols.cryptoSymbols;
    settle.
Qed.

(** A list conversion is the call of its endpoint followed by a silent
    computation. *)
Lemma list_is_bind {R : Runtime} (e : endpoint) (args : list value) :
  is_list e = true ->
  exists k : value -> M value,
    (forall v, silent (k v))
    /\ free e args = bind (free (converted e) (converted_args e args)) k.
Proof.
  intro He. destruct e; try discriminate He;
    eexists; (split; [|reflexivity]); intro v; cbv beta; silence.
Qed.

(** Every endpoint calls the request core at most once, with a request of
    its form. *)
Lemma free_one_request {R : Runtime} (e : endpoint) (args : list value)
    (log : list Call) :
  one_request (negb (is_list e)) (request_of e args) (free e args) log.
Proof.
  destruct (is_list e) eqn:He.
  - destruct (list_is_bind e args He) as (k & Hk & ->).
    apply one_request_bind; [now apply converted_one_request | exact Hk].
  - destruct e; try discriminate He; cbn [negb free];
      unfold Http.tops, Http.last, Http.deep, Http.auction, Http.book,
        Http.opHaltStatus, Http.officialPrice, Http.securityEvent,
        Http.ssrStatus, Http.systemEvent, Http.trades, Http.tradeBreak,
        Http.tradingStatus, Http.hist,
        Symbols.symbols, Symbols.iexSymbols, Symbols.mutualFundSymbols,
        Symbols.otcSymbols, Symbols.internationalSymbols, Symbols.fxSymbols,
        Symbols.optionsSymbols, Symbols.cryptoSymbols, Symbols.isinLookup.
    1,2: destruct (JS.truthy (arg 0 args)); [|run_request];
         destruct (Common._strToList (arg 0 args)); settle.
    1-11: single_symbol_request.
    all: settle.
Qed.

Lemma request_made {R : Runtime} (e : endpoint) (args : list value)
    (log : list Call) (c : Call) :
  snd (free e args log) = (log ++ [c])%list -> request_of e args c.
Proof.
  intro Hc.
  destruct (free_one_request e args log) as [[err Hm] | (c' & Hok & Hs & _)].
  - rewrite Hm in Hc. symmetry in Hc. now apply app_one_neq in Hc.
  - rewrite Hs in Hc. apply app_one_inj in Hc. now subst c'.
Qed.

(** ** One call, one request *)

(** X1: whatever its arguments, an endpoint of either module calls the
    request core at most once: a call that makes no request fails, and
    otherwise exactly one request is added to those made before. *)
Theorem at_most_one_request {R : Runtime} (e : endpoint) (args : list value)
    (log : list Call) :
  (snd (free e args log) = log /\ exists err, fst (free e args log) = inl err)
  \/ (exists c, snd (free e args log) = (log ++ [c])%list).
Proof.
  destruct (free_one_request e args log) as [[err Hm] | (c & _ & Hs & _)].
  - left. rewrite Hm. split; [reflexivity | now exists err].
  - right. now exists c.
Qed.

(** X2: the error of the request core is the error of the endpoint, for
    the list conversions too: when the request that an endpoint makes
    fails, the call of the endpoint fails with the same error. *)
Theorem request_error_surfaces {R : Runtime} (e : endpoint) (args : list value)
    (log : list Call) (c : Call) (err : error) :
  snd (free e args log) = (log ++ [c])%list ->
  respond log c = inl err ->
  fst (free e args log) = inl err.
Proof.
  intros Hc Herr.
  destruct (free_one_request e args log) as [[err' Hm] | (c' & _ & Hs & He & _)].
  - rewrite Hm in Hc. symmetry in Hc. now apply app_one_neq in Hc.
  - rewrite Hs in Hc. apply app_one_inj in Hc. subst c'. now apply He.
Qed.

Lemma request_error_surfaces_example :
  outcome (free (R := failing_runtime) E_symbolsList [VStr "pk_1"; VStr "stable"])
  = inl (RequestError 404%float "Not Found").
Proof.
  apply (request_error_surfaces (R := failing_runtime) E_symbolsList
           [VStr "pk_1"; VStr "stable"] []
           (object_call "ref-data/symbols" (VStr "pk_1") (VStr "stable") (VStr "symbol"))
           (RequestError 404%float "Not Found"));
    reflexivity.
Defined.

(** X3: an endpoint that is not a list conversion returns what the request
    core returns for its request, unchanged, success or failure. *)
Theorem direct_endpoint_returns_response {R : Runtime}
    (e : endpoint) (args : list value) (log : list Call) (c : Call) :
  is_list e = false ->
  snd (free e args log) = (log ++ [c])%list ->
  fst (free e args log) = respond log c.
Proof.
  intros He Hc.
  destruct (free_one_request e args log) as [[err' Hm] | (c' & _ & Hs & _ & Hd)].
  - rewrite Hm in Hc. symmetry in Hc. now apply app_one_neq in Hc.
  - rewrite Hs in Hc. apply app_one_inj in Hc. subst c'.
    apply Hd. now rewrite He.
Qed.

Lemma direct_endpoint_returns_response_example :
  outcome (free (R := symbols_runtime) E_book [VStr "AAPL"; VStr "pk_1"; VStr "stable"])
  = inr two_symbols.
Proof.
  apply (direct_endpoint_returns_response (R := symbols_runtime) E_book
           [VStr "AAPL"; VStr "pk_1"; VStr "stable"] []
           (positional_call "deep/book?symbols=AAPL"
              (VStr "pk_1") (VStr "stable") VUndefined));
    reflexivity.
Defined.

(** ** The form of the requests *)

(** X4: every request of an endpoint is for a URL that starts with the
    path of the endpoint in [http.js], and with [ref-data/] in the symbols
    module, whatever the arguments. *)
Theorem request_url_under_root {R : Runtime} (e : endpoint) (args : list value)
    (log : list Call) (c : Call) :
  snd (free e args log) = (log ++ [c])%list ->
  exists u, call_url c = Some (VStr u) /\ String.prefix (url_root e) u = true.
Proof.
  intro Hc. destruct (request_made e args log c Hc) as (u & Hu & Hform).
  exists u. split; [|exact Hu].
  unfold call_url. destruct (in_http e).
  - destruct Hform as (-> & _). reflexivity.
  - destruct Hform as (-> & _). reflexivity.
Qed.

Lemma request_url_under_root_example :
  exists u,
    call_url (positional_call "deep/trades?symbols=AAPL"
                (VStr "pk_1") (VStr "stable") VUndefined) = Some (VStr u)
    /\ String.prefix "deep/trades" u = true.
Proof.
  apply (request_url_under_root (R := symbols_runtime) E_trades
           [VStr "AAPL"; VStr "pk_1"; VStr "stable"] []).
  reflexivity.
Defined.

(** X5: a request of the symbols module passes nothing by position; its
    options carry the token and the version given to the function, the
    empty string standing for an omitted one, and a filter, so that none
    of the three is ever [undefined]. *)
Theorem symbols_module_defaults {R : Runtime} (e : endpoint) (args : list value)
    (log : list Call) (c : Call) :
  in_http e = false ->
  snd (free e args log) = (log ++ [c])%list ->
  option_of "token" c = JS.default (token_arg e args) (VStr "")
  /\ option_of "version" c = JS.default (version_arg e args) (VStr "")
  /\ option_of "token" c <> VUndefined
  /\ option_of "version" c <> VUndefined
  /\ option_of "filter" c <> VUndefined
  /\ call_token c = VUndefined
  /\ call_version c = VUndefined
  /\ call_filter c = VUndefined.
Proof.
  intros He Hc. destruct (request_made e args log c Hc) as (u & _ & Hform).
  rewrite He in Hform. destruct Hform as (Ho & Hf & Ht & Hv & Hfl).
  assert (Htok : option_of "token" c = JS.default (token_arg e args) (VStr ""))
    by (unfold option_of; rewrite Ho; reflexivity).
  assert (Hver : option_of "version" c = JS.default (version_arg e args) (VStr ""))
    by (unfold option_of; rewrite Ho; reflexivity).
  repeat split; auto.
  - rewrite Htok. apply default_defined.
  - rewrite Hver. apply default_defined.
Qed.

Lemma symbols_module_defaults_example :
  option_of "token" (object_call "ref-data/otc/symbols" (VStr "") (VStr "") (VStr ""))
  = VStr "".
Proof.
  apply (symbols_module_defaults (R := symbols_runtime) E_otcSymbols [] []
           (object_call "ref-data/otc/symbols" (VStr "") (VStr "") (VStr ""))
           eq_refl eq_refl).
Defined.

Lemma credentials_in_place (e : endpoint) (this : Client) (args : list value) :
  token_arg e (with_credentials e this args) = _token this
  /\ version_arg e (with_credentials e this args) = _version this.
Proof.
  destruct e; destruct args as [|a0 [|a1 rest]]; split; reflexivity.
Qed.

(** X6: every request made through a method of a client carries the token
    and the version stored in the client: by position in [http.js], and in
    the options, with the empty string for an [undefined] one, in the
    symbols module. *)
Theorem method_sends_client_credentials {R : Runtime}
    (e : endpoint) (this : Client) (args : list value) (log : list Call) (c : Call) :
  snd (method e this args log) = (log ++ [c])%list ->
  if in_http e
  then call_token c = _token this /\ call_version c = _version this
  else option_of "token" c = JS.default (_token this) (VStr "")
       /\ option_of "version" c = JS.default (_version this) (VStr "").
Proof.
  intro Hc.
  assert (Hm : method e this args = free e (with_credentials e this args))
    by (destruct e; destruct args as [|a0 [|a1 [|a2 rest]]]; reflexivity).
  rewrite Hm in Hc.
  destruct (request_made _ _ _ _ Hc) as (u & _ & Hform).
  destruct (credentials_in_place e this args) as (Ht & Hv).
  rewrite Ht, Hv in Hform.
  destruct (in_http e).
  - destruct Hform as (_ & Htok & Hver). now split.
  - destruct Hform as (Ho & _). unfold option_of. rewrite Ho. now split.
Qed.

Lemma method_sends_client_credentials_example :
  call_token (positional_call "tops" (VStr "pk_1") (VStr "stable") VUndefined)
  = VStr "pk_1"
  /\ call_version (positional_call "tops" (VStr "pk_1") (VStr "stable") VUndefined)
     = VStr "stable".
Proof.
  apply (method_sends_client_credentials (R := symbols_runtime) E_tops
           (mkClient (VStr "pk_1") (VStr "stable")) [] []).
  reflexivity.
Defined.

(** ** The list conversions, whatever the response *)

(** X7: a list conversion makes the requests of the endpoint it converts,
    called with its own arguments and the filter ["symbol"] (no filter for
    [fxSymbolsList]), whether the conversion succeeds or not; the filter of
    its request is ["symbol"], and the empty string for [fxSymbolsList]. *)
Theorem list_conversion_requests {R : Runtime} (e : endpoint) (args : list value)
    (log : list Call) :
  is_list e = true ->
  snd (free e args log) = snd (free (converted e) (converted_args e args) log)
  /\ (forall c, snd (free e args log) = (log ++ [c])%list ->
      option_of "filter" c = list_filter e).
Proof.
  intro He.
  assert (Hs : snd (free e args log)
               = snd (free (converted e) (converted_args e args) log)).
  { destruct (list_is_bind e args He) as (k & Hk & ->).
    now apply bind_silent_requests. }
  split; [exact Hs|].
  intro c. rewrite Hs.
  destruct e; try discriminate He;
    cbn [converted converted_args free arg nth];
    unfold Symbols.internationalSymbols;
    repeat match goal with
           | |- context [if JS.truthy ?x then _ else _] => destruct (JS.truthy x)
           end;
    unfold bind, lift;
    repeat match goal with
           | |- context [JS.to_string ?x] => destruct (JS.to_string x)
           end;
    intro Hc; simpl in Hc;
    first [ symmetry in Hc; now apply app_one_neq in Hc
          | apply app_one_inj in Hc; subst c; reflexivity ].
Qed.

Lemma list_conversion_requests_example :
  requests (free (R := fx_runtime) E_iexSymbolsList [VStr "pk_1"; VStr "stable"])
  = requests (free (R := fx_runtime) E_iexSymbols
                [VStr "pk_1"; VStr "stable"; VStr "symbol"]).
Proof.
  apply (list_conversion_requests (R := fx_runtime) E_iexSymbolsList
           [VStr "pk_1"; VStr "stable"] [] eq_refl).
Defined.

(** [map] with a property read as callback fails with [TypeError], making
    no call, as soon as a record is [undefined] or [null]. *)
Lemma map_each_get_null (k : string) (records : list value) (log : list Call) :
  all_provided records = false ->
  map_each (fun record => Lang.get record k) records log = (inl TypeError, log).
Proof.
  induction records as [|r records IH]; [discriminate|].
  cbn [all_provided forallb]. intro H. apply andb_false_iff in H.
  cbn [map_each]. unfold bind at 1.
  destruct (Common.provided r) eqn:Hr.
  - rewrite (get_provided k r Hr). cbn [ret]. unfold bind at 1.
    destruct H as [H|H]; [discriminate H|]. now rewrite (IH H).
  - destruct r; try discriminate Hr; reflexivity.
Qed.

(** X8: when the converted call resolves to [r], [convertToList] resolves
    to the [symbol] properties of the records if [r] is an array with no
    [undefined] or [null] element, a record without the property giving
    [undefined]; for any other [r], an object or a text for one, it fails
    with [TypeError].  The calls made are those of the converted call. *)
Theorem convertToList_outcome (res : M value) (r : value) (log log' : list Call) :
  res log = (inr r, log') ->
  Symbols.convertToList res log
  = (match r with
     | VArr records =>
         if all_provided records
         then inr (VArr (List.map (field "symbol") records))
         else inl TypeError
     | _ => inl TypeError
     end, log').
Proof.
  intro Hres. unfold Symbols.convertToList. unfold bind at 1. rewrite Hres.
  destruct r; try reflexivity.
  cbn [Lang.map]. unfold bind.
  destruct (all_provided elems) eqn:Hall.
  - now rewrite (map_each_get "symbol" elems log' (all_provided_Forall elems Hall)).
  - now rewrite (map_each_get_null "symbol" elems log' Hall).
Qed.

Lemma convertToList_outcome_example :
  Symbols.convertToList
    (ret (VObj [("error", VStr "The API key provided is not valid.")])) []
  = (inl TypeError, []).
Proof.
  apply (convertToList_outcome
           (ret (VObj [("error", VStr "The API key provided is not valid.")]))
           (VObj [("error", VStr "The API key provided is not valid.")]) [] []
           eq_refl).
Defined.

(** X9: when the FX symbols call resolves to [fx], [fxSymbolsList]
    resolves to the two lists if the [currencies] and the [pairs] of [fx]
    are arrays with no [undefined] or [null] element and the [+] of
    every pair converts its operands, and fails with [TypeError] in every
    other case: a missing [currencies] or [pairs], one that is not an
    array, a [null] record, a currency of a pair that is an object with a
    [toString] property of its own.  The calls made are those of the FX
    symbols call. *)
Theorem fxSymbolsList_outcome {R : Runtime} (token version fx : value)
    (log log' : list Call) :
  Symbols.fxSymbols token version VUndefined log = (inr fx, log') ->
  Symbols.fxSymbolsList token version log
  = (match field "currencies" fx, field "pairs" fx with
     | VArr currencies, VArr pairs =>
         if all_provided currencies && all_provided pairs
         then match pair_codes pairs with
              | inr codes =>
                  inr (VArr [VArr (List.map (field "code") currencies); VArr codes])
              | inl _ => inl TypeError
              end
         else inl TypeError
     | _, _ => inl TypeError
     end, log').
Proof.
  intro Hfx. rewrite (fxSymbolsList_run token version fx log log' Hfx).
  reflexivity.
Qed.

Lemma fxSymbolsList_outcome_example :
  Symbols.fxSymbolsList (R := odd_pair_runtime) (VStr "pk_1") (VStr "stable") []
  = (inl TypeError,
     [object_call "ref-data/fx/symbols" (VStr "pk_1") (VStr "stable") (VStr "")]).
Proof.
  apply (fxSymbolsList_outcome (R := odd_pair_runtime)
           (VStr "pk_1") (VStr "stable") odd_pair [] _ eq_refl).
Defined.

(** The code of the record at a position is the code at that position. *)
Lemma pair_codes_nth {R : Runtime} (pairs codes : list value) :
  pair_codes pairs = inr codes ->
  forall i record, nth_error pairs i = Some record ->
  exists code, pair_code record = inr code /\ nth_error codes i = Some code.
Proof.
  revert codes. induction pairs as [|r pairs IH]; intros codes Hcodes i record Hi.
  - destruct i; discriminate Hi.
  - cbn [pair_codes] in Hcodes.
    destruct (pair_code r) as [e|code] eqn:Hr; [discriminate Hcodes|].
    destruct (pair_codes pairs) as [e|rest] eqn:Hrest; [discriminate Hcodes|].
    cbn [JS.and_then] in Hcodes. injection Hcodes as <-.
    destruct i as [|i]; cbn [nth_error] in *.
    + injection Hi as <-. now exists code.
    + now apply (IH rest eq_refl i record).
Qed.

(** X10: [fxSymbolsList] checks nothing of the pair records: whenever it
    resolves, the entry of its second list for a pair record that lacks
    one of its two currencies is the other one with the text [undefined]
    in the place of the missing one, and for a record that lacks both it
    is the number NaN. *)
Theorem fxSymbolsList_missing_currency {R : Runtime}
    (token version fx : value) (pairs codes out : list value)
    (log log' : list Call) :
  Symbols.fxSymbols token version VUndefined log = (inr fx, log') ->
  field "pairs" fx = VArr pairs ->
  Symbols.fxSymbolsList token version log
    = (inr (VArr [VArr out; VArr codes]), log') ->
  forall i record,
    nth_error pairs i = Some record ->
    (forall a, field "fromCurrency" record = VStr a ->
               field "toCurrency" record = VUndefined ->
               nth_error codes i = Some (VStr (a ++ "undefined")))
    /\ (forall b, field "fromCurrency" record = VUndefined ->
                  field "toCurrency" record = VStr b ->
                  nth_error codes i = Some (VStr ("undefined" ++ b)))
    /\ (field "fromCurrency" record = VUndefined ->
        field "toCurrency" record = VUndefined ->
        nth_error codes i = Some (VNum nan)).
Proof.
  intros Hfx Hpairs Hres i record Hi.
  rewrite (fxSymbolsList_run token version fx log log' Hfx) in Hres.
  unfold fx_lists in Hres. rewrite Hpairs in Hres.
  destruct (field "currencies" fx) as [| | b | n | s | currencies | props];
    try discriminate Hres.
  destruct (all_provided currencies && all_provided pairs);
    [|discriminate Hres].
  destruct (pair_codes pairs) as [e|codes'] eqn:Hcodes; [discriminate Hres|].
  assert (codes' = codes) by congruence. subst codes'.
  destruct (pair_codes_nth pairs codes Hcodes i record Hi) as (code & Hcode & Hnth).
  unfold pair_code in Hcode.
  repeat split; intros; rewrite Hnth; f_equal;
    repeat match goal with
           | H : field _ record = _ |- _ => rewrite H in Hcode; clear H
           end;
    now injection Hcode as <-.
Qed.

Lemma fxSymbolsList_missing_currency_example :
  nth_error [VStr "USDundefined"] 0 = Some (VStr "USDundefined").
Proof.
  apply (proj1 (fxSymbolsList_missing_currency (R := half_pair_runtime)
                  (VStr "pk_1") (VStr "stable") half_pair
                  [VObj [("fromCurrency", VStr "USD")]] [VStr "USDundefined"] []
                  []
                  [object_call "ref-data/fx/symbols"
                     (VStr "pk_1") (VStr "stable") (VStr "")]
                  eq_refl eq_refl eq_refl
                  0 (VObj [("fromCurrency", VStr "USD")]) eq_refl)
           "USD" eq_refl eq_refl).
Defined.

(** ** [hist], [isinLookup] and the empty inputs of [tops] and [last] *)

(** X11: for a non-empty date, [hist] requests [hist?date=] followed by the
    date as [_strOrDate] normalizes it and the template literal converts
    it, and a date that [_strOrDate] rejects, or whose normal form does not
    convert, fails with that error before any request; for an empty or
    omitted date it requests [hist] and [_strOrDate] is not consulted.  In
    both branches the filter of the caller is passed on. *)
Theorem hist_date {R : Runtime} (date token version filter : value)
    (log : list Call) :
  (JS.truthy date = true ->
   (forall d s, _strOrDate date = inr d -> JS.to_string d = inr s ->
      Http.hist date token version filter log
      = Common._getJson (url_only ("hist?date=" ++ s))
          token version filter log)
   /\ (forall err, _strOrDate date = inl err ->
         Http.hist date token version filter log = (inl err, log))
   /\ (forall d err, _strOrDate date = inr d -> JS.to_string d = inl err ->
         Http.hist date token version filter log = (inl err, log)))
  /\ (JS.truthy date = false ->
      Http.hist date token version filter
      = Common._getJson (url_only "hist") token version filter).
Proof.
  unfold Http.hist. split.
  - intros ->. split; [|split].
    + intros d s Hd Hs. unfold bind, lift. now rewrite Hd, Hs.
    + intros err Herr. unfold bind, lift. now rewrite Herr.
    + intros d err Hd Herr. unfold bind, lift. now rewrite Hd, Herr.
  - now intros ->.
Qed.

Lemma hist_date_example :
  Http.hist (R := dateless_runtime)
    (VStr "yesterday") (VStr "pk_1") (VStr "stable") VUndefined []
  = (inl InvalidDateError, []).
Proof.
  apply (proj1 (proj2 (proj1 (hist_date (R := dateless_runtime)
                                (VStr "yesterday") (VStr "pk_1") (VStr "stable")
                                VUndefined [])
                         eq_refl))
           InvalidDateError eq_refl).
Defined.

Lemma to_string_strings {R : Runtime} (l : list string) :
  JS.to_string (VArr (List.map VStr l)) = inr (String.concat "," l).
Proof.
  induction l as [|x [|y r] IH]; try reflexivity.
  change (JS.and_then (JS.to_string (VArr (List.map VStr (y :: r))))
            (fun t => inr (x ++ "," ++ t))
          = inr (x ++ "," ++ String.concat "," (y :: r))).
  now rewrite IH.
Qed.

(** X12: [isinLookup] checks nothing of its argument: a list of ISINs is
    requested as the ISINs joined by commas, and an omitted ISIN as the
    text [undefined]. *)
Theorem isinLookup_unchecked {R : Runtime} (token version filter : value) :
  (forall l : list string,
     Symbols.isinLookup (VArr (List.map VStr l)) token version filter
     = Common._getJson
         (url_with ("ref-data/isin?isin=" ++ String.concat "," l)
            (JS.default token (VStr "")) (JS.default version (VStr ""))
            (JS.default filter (VStr "")))
         VUndefined VUndefined VUndefined)
  /\ Symbols.isinLookup VUndefined token version filter
     = Common._getJson
         (url_with "ref-data/isin?isin=undefined"
            (JS.default token (VStr "")) (JS.default version (VStr ""))
            (JS.default filter (VStr "")))
         VUndefined VUndefined VUndefined.
Proof.
  split; [|reflexivity].
  intro l. unfold Symbols.isinLookup. now rewrite to_string_strings.
Qed.

(** X13: [tops] and [last] take an empty array for a non-empty argument:
    they request [tops?symbols=%2b] and [last?symbols=%2b] and pass no
    filter on, whereas for the empty string, [null] and an omitted
    argument they request [tops] and [last] with the filter of the
    caller. *)
Theorem tops_last_empty_inputs {R : Runtime} (token version filter : value) :
  Http.tops (VArr []) token version filter
    = Common._getJson (url_only "tops?symbols=%2b") token version VUndefined
  /\ Http.last (VArr []) token version filter
    = Common._getJson (url_only "last?symbols=%2b") token version VUndefined
  /\ (forall symbols,
        symbols = VStr "" \/ symbols = VNull \/ symbols = VUndefined ->
        Http.tops symbols token version filter
          = Common._getJson (url_only "tops") token version filter
        /\ Http.last symbols token version filter
          = Common._getJson (url_only "last") token version filter).
Proof.
  repeat split; try reflexivity;
    match goal with H : _ \/ _ |- _ => destruct H as [-> | [-> | ->]] end;
    reflexivity.
Qed.
